(** * PixelStreaming: the browser-side session controller

    A shallow embedding of [Frontend/library/src/PixelStreaming/PixelStreaming.ts]
    and of the parts of its collaborators that its behaviour depends on.

    The class is stateful and event driven.  Every method is a computation in a
    small state monad over a [World]: the fields of the [PixelStreaming] object,
    the [Config] it was given, the state of its [WebRtcPlayerController], the
    clock, and the chronological trace of everything the object did that an
    observer can see (events dispatched, controller methods invoked, frames
    written to a channel).

    Numbers are whole and kept as [Z], with the rounding of a double where
    the class multiplies; a value that may be [undefined] is an [option]; the
    disconnect message, which the source compares against [''], [undefined] and
    [null], has the three-way type [JsString]. Calls to [Logger] only write to
    the console and are left out. *)

From Stdlib Require Import ZArith List String Bool Arith Lia.
Import ListNotations.
Open Scope string_scope.
Open Scope list_scope.
Open Scope Z_scope.

(** ** Identifiers of [Config/Config.ts] used by the class *)

Module Flags.
Inductive t :=
  | IsQualityController | AFKDetection | MatchViewportResolution
  | HoveringMouseMode | AutoConnect.

Definition eqb (a b : t) : bool :=
    match a, b with
    | IsQualityController, IsQualityController
    | AFKDetection, AFKDetection
    | MatchViewportResolution, MatchViewportResolution
    | HoveringMouseMode, HoveringMouseMode
    | AutoConnect, AutoConnect => true
    | _, _ => false
    end.
End Flags.

Module NumericParameters.
Inductive t := MinQP | MaxQP | WebRTCMinBitrate | WebRTCMaxBitrate | WebRTCFPS.

Definition eqb (a b : t) : bool :=
    match a, b with
    | MinQP, MinQP | MaxQP, MaxQP
    | WebRTCMinBitrate, WebRTCMinBitrate
    | WebRTCMaxBitrate, WebRTCMaxBitrate
    | WebRTCFPS, WebRTCFPS => true
    | _, _ => false
    end.
End NumericParameters.

Module OptionParameters.
Inductive t := PreferredCodec.
End OptionParameters.

(** ** Payloads ([DataChannel/InitialSettings.ts], [AggregatedStats.ts]) *)

Record EncoderSettings := { MinQP : Z; MaxQP : Z }.

Record WebRTCSettings := { FPS : Z; MinBitrate : Z; MaxBitrate : Z }.

Record PixelStreamingSettings := { AllowPixelStreamingCommands : option bool }.

Module InitialSettings.
  (** Each group of settings is optional: the source tests
      [if (settings.EncoderSettings)] before it reads one. *)
Record t := {
    PixelStreamingSettings : option PixelStreamingSettings;
    EncoderSettings : option EncoderSettings;
    WebRTCSettings : option WebRTCSettings
  }.
End InitialSettings.

Record SessionStats := {
  runTime : option Z;              (* milliseconds; [None] is NaN *)
  controlsStreamInput : option bool;
  videoEncoderAvgQP : Z
}.

Record AggregatedStats := {
  bytesReceived : Z;               (* stands for the raw metric set *)
  sessionStats : option SessionStats
}.

(** A string-valued JavaScript slot that may also hold [undefined] or [null]. *)
Inductive JsString := js_undefined | js_null | js_string (s : string).

(** [a != '']: loose inequality against the empty string. *)
Definition loose_ne_empty (a : JsString) : bool :=
  match a with
  | js_string s => negb (s =? "")%string
  | js_undefined | js_null => true
  end.

(** [a !== undefined] *)
Definition strict_ne_undefined (a : JsString) : bool :=
  match a with js_undefined => false | _ => true end.

(** [a != null]: loosely, [undefined] equals [null]. *)
Definition loose_ne_null (a : JsString) : bool :=
  match a with js_string _ => true | js_undefined | js_null => false end.

(** [!x || x === undefined] for a number slot: [undefined], and [0] too. *)
Definition unset_time (x : option Z) : bool :=
  match x with
  | None => true
  | Some t => (t =? 0)%Z
  end.

(** ** Numbers

    A JavaScript number is an IEEE 754 double.  The settings and payloads of
    the class hold whole numbers, kept here as [Z]; the integers meant are
    those a double holds exactly.  The one arithmetic operation of the class
    on them is the product [x * 1000] of the bitrate listeners.  A product of
    doubles is the exact product rounded to 53 significant bits, to the
    nearest, ties to the even one; below [2 ^ 53] nothing is rounded away.
    (From [2 ^ 1024] on a double is [Infinity], which [Z] does not have.) *)

Definition round_to_double (x : Z) : Z :=
  let a := Z.abs x in
  if a <? 2 ^ 53 then x
  else
    let e := Z.log2 a - 52 in
    let q := Z.shiftr a e in
    let r := a - Z.shiftl q e in
    let half := Z.shiftl 1 (e - 1) in
    let q' :=
      if r <? half then q
      else if half <? r then q + 1
      else if Z.even q then q else q + 1 in
    Z.sgn x * Z.shiftl q' e.

(** [a * b] *)
Definition js_mul (a b : Z) : Z := round_to_double (a * b).

(** ** Events of [Util/EventEmitter.ts] *)

Inductive SettingValue := flag_value (b : bool) | number_value (n : Z).

Inductive SettingId :=
| flag_id (f : Flags.t)
| numeric_id (n : NumericParameters.t).

Inductive PixelStreamingEvent :=
| WebRtcAutoConnectEvent
| WebRtcSdpEvent
| StreamLoadingEvent
| WebRtcDisconnectedEvent (eventString : string)
                          (showActionOrErrorOnDisconnect : bool)
| WebRtcConnectingEvent
| WebRtcConnectedEvent
| WebRtcFailedEvent
| VideoInitializedEvent
| StatsReceivedEvent (aggregatedStats : AggregatedStats)
| VideoEncoderAvgQPEvent (avgQP : Z)
| InitialSettingsEvent (settings : InitialSettings.t)
| SettingsChangedEvent (id : SettingId) (value : SettingValue)
| StreamerListMessageEvent (ids : list string)
                           (autoSelectedStreamerId : option string)
| DataChannelOpenEvent.

(** ** What the object does to the outside *)

(** Methods of [webRtcController] (and of its [videoPlayer]) that
    [PixelStreaming.ts] invokes and whose bodies are not part of it. *)
Inductive ControllerCall :=
| sendRequestQualityControlOwnership
| setAfkEnabled (isAFKEnabled : bool)
| updateVideoStreamSize
| activateRegisterMouse
| sendEncoderSettings (encode : EncoderSettings)
| sendWebRtcSettings (webRtcSettings : WebRTCSettings)
| setPreferredCodec (codec : string)
| resizePlayerStyle
| playStream
| sendLatencyTest
| sendShowFps
| sendIframeRequest.

(** Frames of the rendezvous (signalling) channel, spec section 6. *)
Inductive SignallingMessage :=
| ListStreamers
| Subscribe (streamerId : string)
| Answer
| IceCandidateOut (candidate : string).

Inductive Effect :=
| Dispatch (e : PixelStreamingEvent)     (* _eventEmitter.dispatchEvent(e) *)
| Call (c : ControllerCall)
| OpenChannel                            (* new rendezvous channel *)
| CloseChannel
| Send (m : SignallingMessage)
| CreatePeerSession
| SetRemoteDescription (sdp : string)
| AddIceCandidate (candidate : string)
| ClosePeerSession
| WriteConsoleCommand (command : string). (* a write on the side channel *)

(** ** State *)

(** The rendezvous channel as the controller holds it. *)
Inductive ChannelState :=
| NoChannel | ChannelConnecting | ChannelOpen | ChannelClosed.

(** Session states of the controller, spec section 3. *)
Inductive SessionState :=
| Idle | SignalingConnecting | AwaitingStreamerList | Subscribed
| Negotiating | Connected | Closing | Disconnected.

Definition is_Connected (s : SessionState) : bool :=
  match s with Connected => true | _ => false end.

Record Config := {
  flags : Flags.t -> bool;
  flagLabels : Flags.t -> string;
  numericParameters : NumericParameters.t -> Z;
  preferredCodec : string
}.

Record Controller := {
  (* read by PixelStreaming.ts *)
  isQualityController : bool;
  disconnectMessageOverride : JsString;
  videoAvgQp : Z;
  isVideoReady : bool;                   (* videoPlayer.isVideoReady() *)
  (* the session controller of the spec *)
  sessionState : SessionState;
  rendezvous : ChannelState;
  streamerDirectory : list string;
  selectedStreamer : option string;
  wasPreviouslyConnected : bool;
  peerSession : bool;
  remoteDescription : option string;
  pendingCandidates : list string;
  peerMetrics : Z;
  dataChannelOpen : bool;
  allowConsoleCommands : bool;           (* the server's permission *)
  statsTimer : option nat;               (* ms until the next tick *)
  reconnectTimer : option nat            (* ms until the deferred reopen *)
}.

Record World := {
  config : Config;
  webRtcController : Controller;
  _showActionOrErrorOnDisconnect : bool;
  _videoStartTime : option Z;
  _inputController : option bool;
  now : Z;                               (* Date.now() *)
  trace : list Effect
}.

(** ** Field updates *)

Definition with_flags (v : Flags.t -> bool) (r : Config) : Config :=
  {| flags := v; flagLabels := flagLabels r;
     numericParameters := numericParameters r;
     preferredCodec := preferredCodec r |}.

Definition with_flagLabels (v : Flags.t -> string) (r : Config) : Config :=
  {| flags := flags r; flagLabels := v;
     numericParameters := numericParameters r;
     preferredCodec := preferredCodec r |}.

Definition with_numericParameters (v : NumericParameters.t -> Z) (r : Config)
    : Config :=
  {| flags := flags r; flagLabels := flagLabels r; numericParameters := v;
     preferredCodec := preferredCodec r |}.

Definition with_isQualityController (v : bool) (r : Controller) : Controller :=
  {| isQualityController := v;
     disconnectMessageOverride := disconnectMessageOverride r;
     videoAvgQp := videoAvgQp r; isVideoReady := isVideoReady r;
     sessionState := sessionState r; rendezvous := rendezvous r;
     streamerDirectory := streamerDirectory r;
     selectedStreamer := selectedStreamer r;
     wasPreviouslyConnected := wasPreviouslyConnected r;
     peerSession := peerSession r; remoteDescription := remoteDescription r;
     pendingCandidates := pendingCandidates r; peerMetrics := peerMetrics r;
     dataChannelOpen := dataChannelOpen r;
     allowConsoleCommands := allowConsoleCommands r;
     statsTimer := statsTimer r; reconnectTimer := reconnectTimer r |}.

Definition with_disconnectMessageOverride (v : JsString) (r : Controller)
    : Controller :=
  {| isQualityController := isQualityController r;
     disconnectMessageOverride := v; videoAvgQp := videoAvgQp r;
     isVideoReady := isVideoReady r; sessionState := sessionState r;
     rendezvous := rendezvous r; streamerDirectory := streamerDirectory r;
     selectedStreamer := selectedStreamer r;
     wasPreviouslyConnected := wasPreviouslyConnected r;
     peerSession := peerSession r; remoteDescription := remoteDescription r;
     pendingCandidates := pendingCandidates r; peerMetrics := peerMetrics r;
     dataChannelOpen := dataChannelOpen r;
     allowConsoleCommands := allowConsoleCommands r;
     statsTimer := statsTimer r; reconnectTimer := reconnectTimer r |}.

Definition with_sessionState (v : SessionState) (r : Controller) : Controller :=
  {| isQualityController := isQualityController r;
     disconnectMessageOverride := disconnectMessageOverride r;
     videoAvgQp := videoAvgQp r; isVideoReady := isVideoReady r;
     sessionState := v; rendezvous := rendezvous r;
     streamerDirectory := streamerDirectory r;
     selectedStreamer := selectedStreamer r;
     wasPreviouslyConnected := wasPreviouslyConnected r;
     peerSession := peerSession r; remoteDescription := remoteDescription r;
     pendingCandidates := pendingCandidates r; peerMetrics := peerMetrics r;
     dataChannelOpen := dataChannelOpen r;
     allowConsoleCommands := allowConsoleCommands r;
     statsTimer := statsTimer r; reconnectTimer := reconnectTimer r |}.

Definition with_rendezvous (v : ChannelState) (r : Controller) : Controller :=
  {| isQualityController := isQualityController r;
     disconnectMessageOverride := disconnectMessageOverride r;
     videoAvgQp := videoAvgQp r; isVideoReady := isVideoReady r;
     sessionState := sessionState r; rendezvous := v;
     streamerDirectory := streamerDirectory r;
     selectedStreamer := selectedStreamer r;
     wasPreviouslyConnected := wasPreviouslyConnected r;
     peerSession := peerSession r; remoteDescription := remoteDescription r;
     pendingCandidates := pendingCandidates r; peerMetrics := peerMetrics r;
     dataChannelOpen := dataChannelOpen r;
     allowConsoleCommands := allowConsoleCommands r;
     statsTimer := statsTimer r; reconnectTimer := reconnectTimer r |}.

Definition with_streamerDirectory (v : list string) (r : Controller)
    : Controller :=
  {| isQualityController := isQualityController r;
     disconnectMessageOverride := disconnectMessageOverride r;
     videoAvgQp := videoAvgQp r; isVideoReady := isVideoReady r;
     sessionState := sessionState r; rendezvous := rendezvous r;
     streamerDirectory := v; selectedStreamer := selectedStreamer r;
     wasPreviouslyConnected := wasPreviouslyConnected r;
     peerSession := peerSession r; remoteDescription := remoteDescription r;
     pendingCandidates := pendingCandidates r; peerMetrics := peerMetrics r;
     dataChannelOpen := dataChannelOpen r;
     allowConsoleCommands := allowConsoleCommands r;
     statsTimer := statsTimer r; reconnectTimer := reconnectTimer r |}.

Definition with_selectedStreamer (v : option string) (r : Controller)
    : Controller :=
  {| isQualityController := isQualityController r;
     disconnectMessageOverride := disconnectMessageOverride r;
     videoAvgQp := videoAvgQp r; isVideoReady := isVideoReady r;
     sessionState := sessionState r; rendezvous := rendezvous r;
     streamerDirectory := streamerDirectory r; selectedStreamer := v;
     wasPreviouslyConnected := wasPreviouslyConnected r;
     peerSession := peerSession r; remoteDescription := remoteDescription r;
     pendingCandidates := pendingCandidates r; peerMetrics := peerMetrics r;
     dataChannelOpen := dataChannelOpen r;
     allowConsoleCommands := allowConsoleCommands r;
     statsTimer := statsTimer r; reconnectTimer := reconnectTimer r |}.

Definition with_wasPreviouslyConnected (v : bool) (r : Controller)
    : Controller :=
  {| isQualityController := isQualityController r;
     disconnectMessageOverride := disconnectMessageOverride r;
     videoAvgQp := videoAvgQp r; isVideoReady := isVideoReady r;
     sessionState := sessionState r; rendezvous := rendezvous r;
     streamerDirectory := streamerDirectory r;
     selectedStreamer := selectedStreamer r; wasPreviouslyConnected := v;
     peerSession := peerSession r; remoteDescription := remoteDescription r;
     pendingCandidates := pendingCandidates r; peerMetrics := peerMetrics r;
     dataChannelOpen := dataChannelOpen r;
     allowConsoleCommands := allowConsoleCommands r;
     statsTimer := statsTimer r; reconnectTimer := reconnectTimer r |}.

Definition with_peerSession (v : bool) (r : Controller) : Controller :=
  {| isQualityController := isQualityController r;
     disconnectMessageOverride := disconnectMessageOverride r;
     videoAvgQp := videoAvgQp r; isVideoReady := isVideoReady r;
     sessionState := sessionState r; rendezvous := rendezvous r;
     streamerDirectory := streamerDirectory r;
     selectedStreamer := selectedStreamer r;
     wasPreviouslyConnected := wasPreviouslyConnected r; peerSession := v;
     remoteDescription := remoteDescription r;
     pendingCandidates := pendingCandidates r; peerMetrics := peerMetrics r;
     dataChannelOpen := dataChannelOpen r;
     allowConsoleCommands := allowConsoleCommands r;
     statsTimer := statsTimer r; reconnectTimer := reconnectTimer r |}.

Definition with_remoteDescription (v : option string) (r : Controller)
    : Controller :=
  {| isQualityController := isQualityController r;
     disconnectMessageOverride := disconnectMessageOverride r;
     videoAvgQp := videoAvgQp r; isVideoReady := isVideoReady r;
     sessionState := sessionState r; rendezvous := rendezvous r;
     streamerDirectory := streamerDirectory r;
     selectedStreamer := selectedStreamer r;
     wasPreviouslyConnected := wasPreviouslyConnected r;
     peerSession := peerSession r; remoteDescription := v;
     pendingCandidates := pendingCandidates r; peerMetrics := peerMetrics r;
     dataChannelOpen := dataChannelOpen r;
     allowConsoleCommands := allowConsoleCommands r;
     statsTimer := statsTimer r; reconnectTimer := reconnectTimer r |}.

Definition with_pendingCandidates (v : list string) (r : Controller)
    : Controller :=
  {| isQualityController := isQualityController r;
     disconnectMessageOverride := disconnectMessageOverride r;
     videoAvgQp := videoAvgQp r; isVideoReady := isVideoReady r;
     sessionState := sessionState r; rendezvous := rendezvous r;
     streamerDirectory := streamerDirectory r;
     selectedStreamer := selectedStreamer r;
     wasPreviouslyConnected := wasPreviouslyConnected r;
     peerSession := peerSession r; remoteDescription := remoteDescription r;
     pendingCandidates := v; peerMetrics := peerMetrics r;
     dataChannelOpen := dataChannelOpen r;
     allowConsoleCommands := allowConsoleCommands r;
     statsTimer := statsTimer r; reconnectTimer := reconnectTimer r |}.

Definition with_dataChannelOpen (v : bool) (r : Controller) : Controller :=
  {| isQualityController := isQualityController r;
     disconnectMessageOverride := disconnectMessageOverride r;
     videoAvgQp := videoAvgQp r; isVideoReady := isVideoReady r;
     sessionState := sessionState r; rendezvous := rendezvous r;
     streamerDirectory := streamerDirectory r;
     selectedStreamer := selectedStreamer r;
     wasPreviouslyConnected := wasPreviouslyConnected r;
     peerSession := peerSession r; remoteDescription := remoteDescription r;
     pendingCandidates := pendingCandidates r; peerMetrics := peerMetrics r;
     dataChannelOpen := v; allowConsoleCommands := allowConsoleCommands r;
     statsTimer := statsTimer r; reconnectTimer := reconnectTimer r |}.

Definition with_allowConsoleCommands (v : bool) (r : Controller) : Controller :=
  {| isQualityController := isQualityController r;
     disconnectMessageOverride := disconnectMessageOverride r;
     videoAvgQp := videoAvgQp r; isVideoReady := isVideoReady r;
     sessionState := sessionState r; rendezvous := rendezvous r;
     streamerDirectory := streamerDirectory r;
     selectedStreamer := selectedStreamer r;
     wasPreviouslyConnected := wasPreviouslyConnected r;
     peerSession := peerSession r; remoteDescription := remoteDescription r;
     pendingCandidates := pendingCandidates r; peerMetrics := peerMetrics r;
     dataChannelOpen := dataChannelOpen r; allowConsoleCommands := v;
     statsTimer := statsTimer r; reconnectTimer := reconnectTimer r |}.

Definition with_statsTimer (v : option nat) (r : Controller) : Controller :=
  {| isQualityController := isQualityController r;
     disconnectMessageOverride := disconnectMessageOverride r;
     videoAvgQp := videoAvgQp r; isVideoReady := isVideoReady r;
     sessionState := sessionState r; rendezvous := rendezvous r;
     streamerDirectory := streamerDirectory r;
     selectedStreamer := selectedStreamer r;
     wasPreviouslyConnected := wasPreviouslyConnected r;
     peerSession := peerSession r; remoteDescription := remoteDescription r;
     pendingCandidates := pendingCandidates r; peerMetrics := peerMetrics r;
     dataChannelOpen := dataChannelOpen r;
     allowConsoleCommands := allowConsoleCommands r; statsTimer := v;
     reconnectTimer := reconnectTimer r |}.

Definition with_reconnectTimer (v : option nat) (r : Controller) : Controller :=
  {| isQualityController := isQualityController r;
     disconnectMessageOverride := disconnectMessageOverride r;
     videoAvgQp := videoAvgQp r; isVideoReady := isVideoReady r;
     sessionState := sessionState r; rendezvous := rendezvous r;
     streamerDirectory := streamerDirectory r;
     selectedStreamer := selectedStreamer r;
     wasPreviouslyConnected := wasPreviouslyConnected r;
     peerSession := peerSession r; remoteDescription := remoteDescription r;
     pendingCandidates := pendingCandidates r; peerMetrics := peerMetrics r;
     dataChannelOpen := dataChannelOpen r;
     allowConsoleCommands := allowConsoleCommands r;
     statsTimer := statsTimer r; reconnectTimer := v |}.

Definition with_config (v : Config) (r : World) : World :=
  {| config := v; webRtcController := webRtcController r;
     _showActionOrErrorOnDisconnect := _showActionOrErrorOnDisconnect r;
     _videoStartTime := _videoStartTime r;
     _inputController := _inputController r; now := now r;
     trace := trace r |}.

Definition with_webRtcController (v : Controller) (r : World) : World :=
  {| config := config r; webRtcController := v;
     _showActionOrErrorOnDisconnect := _showActionOrErrorOnDisconnect r;
     _videoStartTime := _videoStartTime r;
     _inputController := _inputController r; now := now r;
     trace := trace r |}.

Definition with__showActionOrErrorOnDisconnect (v : bool) (r : World) : World :=
  {| config := config r; webRtcController := webRtcController r;
     _showActionOrErrorOnDisconnect := v;
     _videoStartTime := _videoStartTime r;
     _inputController := _inputController r; now := now r;
     trace := trace r |}.

Definition with__videoStartTime (v : option Z) (r : World) : World :=
  {| config := config r; webRtcController := webRtcController r;
     _showActionOrErrorOnDisconnect := _showActionOrErrorOnDisconnect r;
     _videoStartTime := v; _inputController := _inputController r;
     now := now r; trace := trace r |}.

Definition with__inputController (v : option bool) (r : World) : World :=
  {| config := config r; webRtcController := webRtcController r;
     _showActionOrErrorOnDisconnect := _showActionOrErrorOnDisconnect r;
     _videoStartTime := _videoStartTime r; _inputController := v;
     now := now r; trace := trace r |}.

Definition with_now (v : Z) (r : World) : World :=
  {| config := config r; webRtcController := webRtcController r;
     _showActionOrErrorOnDisconnect := _showActionOrErrorOnDisconnect r;
     _videoStartTime := _videoStartTime r;
     _inputController := _inputController r; now := v; trace := trace r |}.

Definition with_trace (v : list Effect) (r : World) : World :=
  {| config := config r; webRtcController := webRtcController r;
     _showActionOrErrorOnDisconnect := _showActionOrErrorOnDisconnect r;
     _videoStartTime := _videoStartTime r;
     _inputController := _inputController r; now := now r; trace := v |}.

(** ** The state monad of the methods *)

Definition M (A : Type) : Type := World -> A * World.

Definition ret {A : Type} (a : A) : M A := fun w => (a, w).

Definition bind {A B : Type} (m : M A) (k : A -> M B) : M B :=
  fun w => k (fst (m w)) (snd (m w)).

Notation "x <- m ;; k" := (bind m (fun x => k))
  (at level 61, m at next level, right associativity).
Notation "m ;; k" := (bind m (fun _ => k))
  (at level 61, right associativity).

Definition gets {A : Type} (f : World -> A) : M A := fun w => (f w, w).

Definition modify (f : World -> World) : M unit := fun w => (tt, f w).

(** The state a computation leaves, and the value it returns. *)
Definition exec {A : Type} (m : M A) (w : World) : World := snd (m w).
Definition eval {A : Type} (m : M A) (w : World) : A := fst (m w).

Definition emit (e : Effect) : M unit :=
  modify (fun w => with_trace (trace w ++ [e]) w).

Definition call (c : ControllerCall) : M unit := emit (Call c).

Definition modifyController (f : Controller -> Controller) : M unit :=
  modify (fun w => with_webRtcController (f (webRtcController w)) w).

Definition getsController {A : Type} (f : Controller -> A) : M A :=
  gets (fun w => f (webRtcController w)).

Definition modifyConfig (f : Config -> Config) : M unit :=
  modify (fun w => with_config (f (config w)) w).

Definition Date_now : M Z := gets now.

(** [this._eventEmitter.dispatchEvent(e)] *)
Definition dispatchEvent (e : PixelStreamingEvent) : M unit :=
  emit (Dispatch e).

(** ** Config: reads *)

Definition isFlagEnabled (id : Flags.t) : M bool :=
  gets (fun w => flags (config w) id).

Definition getNumericSettingValue (id : NumericParameters.t) : M Z :=
  gets (fun w => numericParameters (config w) id).

(** Modelled from the spec: [Config.setFlagLabel] is in Config/Config.ts,
    which is not under src/.  Section 9 describes the configuration as an
    object with a change-notification capability, and the class comment of
    [PixelStreaming.config] says that whenever the configuration is changed a
    [settingsChanged] event is emitted: the label is stored and the event is
    emitted for the flag, with the value the flag holds. *)
Definition setFlagLabel (id : Flags.t) (label : string) : M unit :=
  modifyConfig (fun c =>
    with_flagLabels
      (fun k => if Flags.eqb k id then label else flagLabels c k) c) ;;
  value <- isFlagEnabled id ;;
  dispatchEvent (SettingsChangedEvent (flag_id id) (flag_value value)).

(** ** [configureSettings]: the change listeners the class registers *)

(** The listeners registered with [_addOnSettingChangedListener], by flag. *)
Definition configureSettings_flag (id : Flags.t) (value : bool) : M unit :=
  match id with
  | Flags.IsQualityController =>
      let wantsQualityController := value in
      isQC <- getsController isQualityController ;;
      if Bool.eqb wantsQualityController true && negb isQC
      then call sendRequestQualityControlOwnership
      else ret tt
  | Flags.AFKDetection => call (setAfkEnabled value)
  | Flags.MatchViewportResolution => call updateVideoStreamSize
  | Flags.HoveringMouseMode =>
      let isHoveringMouse := value in
      setFlagLabel Flags.HoveringMouseMode
        ("Control Scheme: "
           ++ (if isHoveringMouse then "Hovering" else "Locked")
           ++ " Mouse")%string ;;
      call activateRegisterMouse
  | Flags.AutoConnect => ret tt
  end.

(** The listeners registered with [_addOnNumericSettingChangedListener]. *)
Definition configureSettings_numeric
    (id : NumericParameters.t) (newValue : Z) : M unit :=
  match id with
  | NumericParameters.MinQP =>
      maxQP <- getNumericSettingValue NumericParameters.MaxQP ;;
      call (sendEncoderSettings {| MinQP := newValue; MaxQP := maxQP |})
  | NumericParameters.MaxQP =>
      minQP <- getNumericSettingValue NumericParameters.MinQP ;;
      call (sendEncoderSettings {| MinQP := minQP; MaxQP := newValue |})
  | NumericParameters.WebRTCMinBitrate =>
      fps <- getNumericSettingValue NumericParameters.WebRTCFPS ;;
      maxBitrate <- getNumericSettingValue NumericParameters.WebRTCMaxBitrate ;;
      call (sendWebRtcSettings
              {| FPS := fps;
                 MinBitrate := js_mul newValue 1000;
                 MaxBitrate := js_mul maxBitrate 1000 |})
  | NumericParameters.WebRTCMaxBitrate =>
      fps <- getNumericSettingValue NumericParameters.WebRTCFPS ;;
      minBitrate <- getNumericSettingValue NumericParameters.WebRTCMinBitrate ;;
      call (sendWebRtcSettings
              {| FPS := fps;
                 MinBitrate := js_mul minBitrate 1000;
                 MaxBitrate := js_mul newValue 1000 |})
  | NumericParameters.WebRTCFPS =>
      minBitrate <- getNumericSettingValue NumericParameters.WebRTCMinBitrate ;;
      maxBitrate <- getNumericSettingValue NumericParameters.WebRTCMaxBitrate ;;
      call (sendWebRtcSettings
              {| FPS := newValue;
                 MinBitrate := js_mul minBitrate 1000;
                 MaxBitrate := js_mul maxBitrate 1000 |})
  end.

(** ** Config: writes, with change notification *)

(** Modelled from the spec: [Config.setFlagEnabled] is in Config/Config.ts,
    which is not under src/.  Section 9 describes the configuration as an
    object with a change-notification capability, and the class comment of
    [PixelStreaming.config] says that whenever the configuration is changed a
    [settingsChanged] event is emitted: the write stores the value, runs the
    listener registered for the setting and emits the event. *)
Definition setFlagEnabled (id : Flags.t) (flagEnabled : bool) : M unit :=
  modifyConfig (fun c =>
    with_flags (fun k => if Flags.eqb k id then flagEnabled else flags c k) c) ;;
  configureSettings_flag id flagEnabled ;;
  dispatchEvent (SettingsChangedEvent (flag_id id) (flag_value flagEnabled)).

(** Modelled from the spec: [Config.setNumericSetting], as [setFlagEnabled]. *)
Definition setNumericSetting (id : NumericParameters.t) (value : Z) : M unit :=
  modifyConfig (fun c =>
    with_numericParameters
      (fun k => if NumericParameters.eqb k id then value
                else numericParameters c k) c) ;;
  configureSettings_numeric id value ;;
  dispatchEvent (SettingsChangedEvent (numeric_id id) (number_value value)).

(** ** PixelStreaming.ts: callbacks *)

Definition _onInputControlOwnership (inputControlOwnership : bool) : M unit :=
  modify (with__inputController (Some inputControlOwnership)).

Definition _onWebRtcAutoConnect : M unit :=
  dispatchEvent WebRtcAutoConnectEvent ;;
  modify (with__showActionOrErrorOnDisconnect true).

Definition _onWebRtcSdp : M unit := dispatchEvent WebRtcSdpEvent.

Definition _onStreamLoading : M unit := dispatchEvent StreamLoadingEvent.

Definition getDisconnectMessageOverride : M JsString :=
  getsController disconnectMessageOverride.

Definition setDisconnectMessageOverride (message : JsString) : M unit :=
  modifyController (with_disconnectMessageOverride message).

Definition _onDisconnect (eventString : string) : M unit :=
  o1 <- getDisconnectMessageOverride ;;
  o2 <- getDisconnectMessageOverride ;;
  o3 <- getDisconnectMessageOverride ;;
  eventString <-
    (if loose_ne_empty o1 && strict_ne_undefined o2 && loose_ne_null o3
     then
       o <- getDisconnectMessageOverride ;;
       setDisconnectMessageOverride (js_string "") ;;
       ret (match o with js_string s => s | _ => eventString end)
     else ret eventString) ;;
  show <- gets _showActionOrErrorOnDisconnect ;;
  dispatchEvent (WebRtcDisconnectedEvent eventString show) ;;
  show' <- gets _showActionOrErrorOnDisconnect ;;
  if Bool.eqb show' false
  then modify (with__showActionOrErrorOnDisconnect true)
  else ret tt.

Definition _onWebRtcConnecting : M unit := dispatchEvent WebRtcConnectingEvent.

Definition _onWebRtcConnected : M unit := dispatchEvent WebRtcConnectedEvent.

Definition _onWebRtcFailed : M unit := dispatchEvent WebRtcFailedEvent.

Definition _onVideoInitialized : M unit :=
  dispatchEvent VideoInitializedEvent ;;
  t <- Date_now ;;
  modify (with__videoStartTime (Some t)).

(** Modelled from the spec: [AggregatedStats.handleSessionStatistics] is in
    PeerConnectionController/AggregatedStats.ts, which is not under src/.
    Section 4.4: the session duration is [now - videoStartTime], and the
    snapshot records whether input control is currently held.  The start time
    arrives as the caller passes it, so an [undefined] one gives no number. *)
Definition handleSessionStatistics
    (videoStartTime : option Z) (inputController : option bool) (avgQP : Z)
    (videoStats : AggregatedStats) : M AggregatedStats :=
  t <- Date_now ;;
  ret {| bytesReceived := bytesReceived videoStats;
         sessionStats :=
           Some {| runTime := option_map (fun start => t - start) videoStartTime;
                   controlsStreamInput := inputController;
                   videoEncoderAvgQP := avgQP |} |}.

Definition _onVideoStats (videoStats : AggregatedStats) : M unit :=
  start <- gets _videoStartTime ;;
  (if unset_time start
   then t <- Date_now ;; modify (with__videoStartTime (Some t))
   else ret tt) ;;
  start <- gets _videoStartTime ;;
  inputController <- gets _inputController ;;
  avgQP <- getsController videoAvgQp ;;
  videoStats <- handleSessionStatistics start inputController avgQP videoStats ;;
  dispatchEvent (StatsReceivedEvent videoStats).

Definition _onVideoEncoderAvgQP (QP : Z) : M unit :=
  dispatchEvent (VideoEncoderAvgQPEvent QP).

Definition _onInitialSettings (settings : InitialSettings.t) : M unit :=
  dispatchEvent (InitialSettingsEvent settings) ;;
  (match InitialSettings.PixelStreamingSettings settings with
   | Some p =>
       let allowConsoleCommands := AllowPixelStreamingCommands p in
       (* allowConsoleCommands === false is reported through Logger.Info *)
       ret tt
   | None => ret tt
   end) ;;
  (match InitialSettings.EncoderSettings settings with
   | Some e =>
       setNumericSetting NumericParameters.MinQP (MinQP e) ;;
       setNumericSetting NumericParameters.MaxQP (MaxQP e)
   | None => ret tt
   end) ;;
  (match InitialSettings.WebRTCSettings settings with
   | Some r =>
       setNumericSetting NumericParameters.WebRTCMinBitrate (MinBitrate r) ;;
       setNumericSetting NumericParameters.WebRTCMinBitrate (MaxBitrate r) ;;
       setNumericSetting NumericParameters.WebRTCFPS (FPS r)
   | None => ret tt
   end).

Definition _onQualityControlOwnership (hasQualityOwnership : bool) : M unit :=
  setFlagEnabled Flags.IsQualityController hasQualityOwnership.

(** ** PixelStreaming.ts: requests *)

Definition requestLatencyTest : M bool :=
  ready <- getsController isVideoReady ;;
  if negb ready then ret false
  else call sendLatencyTest ;; ret true.

Definition requestShowFps : M bool :=
  ready <- getsController isVideoReady ;;
  if negb ready then ret false
  else call sendShowFps ;; ret true.

Definition requestIframe : M bool :=
  ready <- getsController isVideoReady ;;
  if negb ready then ret false
  else call sendIframeRequest ;; ret true.

(** ** The session controller

    [WebRtcPlayerController] is handed to the class by its constructor and is
    called by [connect], [reconnect] and [disconnect]; its file is not under
    src/.  The operations below follow sections 3 and 4 of the specification;
    where the controller reports back, it calls the callbacks of
    PixelStreaming.ts defined above. *)

Definition reconnectDelay : nat := 3000.

Definition statsInterval : nat := 1000.

(** Modelled from the spec: [WebRtcPlayerController.connectToSignallingServer]
    is not under src/.  Section 4.3, row [Idle / connect()]: open the
    Rendezvous Channel and enter [SignalingConnecting]. *)
Definition connectToSignallingServer : M unit :=
  emit OpenChannel ;;
  modifyController (fun c =>
    with_rendezvous ChannelConnecting (with_sessionState SignalingConnecting c)).

(** The reason the controller gives when the session is closed on request;
    the specification asks for a human-readable reason and fixes no wording. *)
Definition closedByRequest : string := "disconnected".

(** Modelled from the spec: [WebRtcPlayerController.close] is not under src/.
    Section 4.3, row [disconnect()]: close the Peer Session; close the
    Rendezvous Channel; stop polling; emit the disconnected event; the state
    ends in [Disconnected].  Section 3: the selected streamer is cleared on
    disconnect.  The side channel is carried by the Peer Session and goes
    with it. *)
Definition close (reason : string) : M unit :=
  hasPeer <- getsController peerSession ;;
  (if hasPeer then emit ClosePeerSession else ret tt) ;;
  emit CloseChannel ;;
  modifyController (fun c =>
    with_sessionState Disconnected
      (with_rendezvous ChannelClosed
         (with_peerSession false
            (with_remoteDescription None
               (with_pendingCandidates []
                  (with_selectedStreamer None
                     (with_dataChannelOpen false
                        (with_statsTimer None c)))))))) ;;
  _onDisconnect reason.

(** What the reconnect timer runs when it expires: section 4.3, row
    [reconnect()], "reopening the channel, then emit an auto-connect event". *)
Definition deferredReconnect : M unit :=
  connectToSignallingServer ;;
  _onWebRtcAutoConnect.

(** The connection to the signalling server is up from the moment the
    channel is created until it is closed. *)
Definition connectionUp (c : Controller) : bool :=
  match rendezvous c with
  | ChannelConnecting | ChannelOpen => true
  | NoChannel | ChannelClosed => false
  end.

(** Modelled from the spec: [WebRtcPlayerController.restartStreamAutomatically]
    is not under src/.  Section 3, Reconnect Attempt State: the "was
    previously connected" flag and the fixed delay decide whether the
    reconnect is immediate or deferred.  Section 4.3, row [reconnect()]: a
    session that had ever reached [Connected] is closed and the channel
    reopened after 3000 ms, followed by the auto-connect event; otherwise the
    channel is reopened at once.  The documentation of [reconnect] under src/
    adds "If connection is up, disconnects first before establishing a new
    connection", and its two tests call the connection up once the channel
    has been created (an object built with [AutoConnect], nothing received
    yet) and not up on an object that has not connected: a connection that
    is up is closed first as well.  Section 5: a timer is cancelled before
    one of the same kind is armed, so arming replaces a pending reconnect. *)
Definition restartStreamAutomatically : M unit :=
  up <- getsController connectionUp ;;
  was <- getsController wasPreviouslyConnected ;;
  if up || was
  then
    close closedByRequest ;;
    modifyController (with_reconnectTimer (Some reconnectDelay))
  else connectToSignallingServer.

(** Modelled from the spec: the handler of the channel-open notification is
    not under src/.  Section 4.3, row [SignalingConnecting / channel opened]:
    send [ListStreamers] and await the list. *)
Definition onChannelOpened : M unit :=
  modifyController (fun c =>
    with_rendezvous ChannelOpen (with_sessionState AwaitingStreamerList c)) ;;
  emit (Send ListStreamers).

(** Modelled from the spec: the [Config] handler is not under src/.
    Section 4.3: construct the Peer Session with the supplied options. *)
Definition onConfig : M unit :=
  emit CreatePeerSession ;;
  modifyController (fun c =>
    with_peerSession true
      (with_remoteDescription None (with_pendingCandidates [] c))).

(** The auto-selection policy of section 4.2: exactly one identifier. *)
Definition autoSelect (ids : list string) : option string :=
  match ids with
  | [id] => Some id
  | _ => None
  end.

(** Modelled from the spec: the [StreamerList] handler is not under src/.
    Section 4.2, [onStreamerList(ids)]: replace the directory; a single
    identifier is selected and a [Subscribe] is sent at once; the discovery
    event carries the full directory and the auto-selected id, or none,
    whether or not a selection occurred. *)
Definition onStreamerList (ids : list string) : M unit :=
  modifyController (with_streamerDirectory ids) ;;
  (match autoSelect ids with
   | Some id =>
       modifyController (fun c =>
         with_selectedStreamer (Some id) (with_sessionState Subscribed c)) ;;
       emit (Send (Subscribe id))
   | None => ret tt
   end) ;;
  dispatchEvent (StreamerListMessageEvent ids (autoSelect ids)).

(** Modelled from the spec: the [Offer] handler is not under src/.
    Section 4.3, row [Subscribed / Offer]: set the remote description on the
    Peer Session, generate and send the [Answer], flush the buffered
    candidates; section 8: the sdp-exchanged event fires.  Without a Peer
    Session the message cannot be processed and is dropped (section 7,
    UnexpectedMessage). *)
Definition onOffer (sdp : string) : M unit :=
  hasPeer <- getsController peerSession ;;
  if hasPeer
  then
    emit (SetRemoteDescription sdp) ;;
    _onWebRtcSdp ;;
    emit (Send Answer) ;;
    pending <- getsController pendingCandidates ;;
    modify (fun w => with_trace (trace w ++ map AddIceCandidate pending) w) ;;
    modifyController (fun c =>
      with_remoteDescription (Some sdp)
        (with_pendingCandidates [] (with_sessionState Negotiating c)))
  else ret tt.

(** Modelled from the spec: the [IceCandidate] handler is not under src/.
    Sections 3 and 4.3: apply the candidate to the Peer Session, buffering it
    while no remote description exists. *)
Definition onIceCandidate (candidate : string) : M unit :=
  hasPeer <- getsController peerSession ;;
  remote <- getsController remoteDescription ;;
  if hasPeer
  then
    match remote with
    | Some _ => emit (AddIceCandidate candidate)
    | None =>
        modifyController (fun c =>
          with_pendingCandidates (pendingCandidates c ++ [candidate]) c)
    end
  else ret tt.

(** Modelled from the spec: the connectivity callback is not under src/.
    Section 4.3: on "connected" enter [Connected], start the statistics
    polling and emit the connected event.  Only an existing Peer Session
    reports connectivity.  Section 4.4: the timer is started on entering
    [Connected]; a report that finds the session [Connected] already enters
    nothing and leaves the running timer alone.  Section 3: from now on the
    session was previously connected. *)
Definition onConnectivityConnected : M unit :=
  hasPeer <- getsController peerSession ;;
  st <- getsController sessionState ;;
  if hasPeer
  then
    modifyController (with_wasPreviouslyConnected true) ;;
    (if is_Connected st
     then ret tt
     else
       modifyController (fun c =>
         with_sessionState Connected
           (with_statsTimer (Some statsInterval) c))) ;;
    _onWebRtcConnected
  else ret tt.

(** Modelled from the spec: section 4.3, connectivity "failed": the state
    becomes [Disconnected] and the failure event is emitted; nothing is
    retried.  Leaving [Connected] stops the polling (section 4.4). *)
Definition onConnectivityFailed : M unit :=
  hasPeer <- getsController peerSession ;;
  if hasPeer
  then
    modifyController (fun c =>
      with_sessionState Disconnected (with_statsTimer None c)) ;;
    _onWebRtcFailed
  else ret tt.

(** Modelled from the spec: section 4.3, side-channel messages: once the Peer
    Session reports its reliable channel open, the channel-open event is
    emitted. *)
Definition onDataChannelOpen : M unit :=
  hasPeer <- getsController peerSession ;;
  if hasPeer
  then
    modifyController (with_dataChannelOpen true) ;;
    dispatchEvent DataChannelOpenEvent
  else ret tt.

(** The initial-settings messages the class has processed, oldest first:
    [_onInitialSettings] dispatches each one as an [InitialSettingsEvent]. *)
Definition settingsEvents (t : list Effect) : list InitialSettings.t :=
  flat_map
    (fun e =>
       match e with
       | Dispatch (InitialSettingsEvent settings) => [settings]
       | _ => []
       end) t.

(** Whether an initial-settings message carries the permission for console
    commands: [AllowPixelStreamingCommands] is there and is [true]. *)
Definition grantsConsoleCommands (settings : InitialSettings.t) : bool :=
  match InitialSettings.PixelStreamingSettings settings with
  | Some p =>
      match AllowPixelStreamingCommands p with
      | Some allow => allow
      | None => false
      end
  | None => false
  end.

(** Modelled from the spec: the side-channel handler of the initial-settings
    frame is not under src/, and the [_onInitialSettings] under src/ reads the
    flag and reports it without keeping it.  Section 4.3: the permission is
    the server-granted flag received in the initial settings message.
    Section 8: once a message with the flag set has been processed, commands
    reach the channel.  The controller records the grant, which stays, and
    hands the message to [_onInitialSettings].  (The tests under src/ call
    the [_onInitialSettings] of the class they were written for, which does
    the recording itself.) *)
Definition onInitialSettingsMessage (settings : InitialSettings.t) : M unit :=
  (if grantsConsoleCommands settings
   then modifyController (with_allowConsoleCommands true)
   else ret tt) ;;
  _onInitialSettings settings.

(** Modelled from the spec: [emitConsoleCommand] is not in the
    PixelStreaming.ts under src/ (its tests are).  Sections 4.3 and 6: the
    command is written to the side channel only while the channel is open and
    the permission is granted; otherwise the call does nothing. *)
Definition emitConsoleCommand (command : string) : M unit :=
  isOpen <- getsController dataChannelOpen ;;
  allowed <- getsController allowConsoleCommands ;;
  if isOpen && allowed
  then emit (WriteConsoleCommand command)
  else ret tt.

(** Modelled from the spec: the side-channel handler of the quality-control
    ownership frame is not under src/.  Section 4.3: the inbound message
    carries the server's grant; the controller records it and reports it. *)
Definition onQualityControlOwnershipMessage (granted : bool) : M unit :=
  modifyController (with_isQualityController granted) ;;
  _onQualityControlOwnership granted.

(** Modelled from the spec: the statistics aggregator is not under src/.
    Section 4.4: on each tick while the state is [Connected], the raw metrics
    of the Peer Session are merged into one snapshot and handed over; ticks
    while not [Connected] do nothing. *)
Definition onStatsTick : M unit :=
  st <- getsController sessionState ;;
  if is_Connected st
  then
    raw <- getsController peerMetrics ;;
    _onVideoStats {| bytesReceived := raw; sessionStats := None |}
  else ret tt.

(** One millisecond passes: the clock advances and each armed timer counts
    down; the statistics timer is periodic, the reconnect timer fires once. *)
Definition tick : M unit :=
  modify (fun w => with_now (now w + 1) w) ;;
  st <- getsController statsTimer ;;
  (match st with
   | Some r =>
       if (r <=? 1)%nat
       then modifyController (with_statsTimer (Some statsInterval)) ;;
            onStatsTick
       else modifyController (with_statsTimer (Some (Nat.pred r)))
   | None => ret tt
   end) ;;
  rt <- getsController reconnectTimer ;;
  match rt with
  | Some r =>
      if (r <=? 1)%nat
      then modifyController (with_reconnectTimer None) ;;
           deferredReconnect
      else modifyController (with_reconnectTimer (Some (Nat.pred r)))
  | None => ret tt
  end.

Fixpoint advanceTimersByTime (ms : nat) : M unit :=
  match ms with
  | O => ret tt
  | S n => tick ;; advanceTimersByTime n
  end.

(** ** PixelStreaming.ts: lifecycle *)

Definition connect : M unit := connectToSignallingServer.

Definition reconnect : M unit := restartStreamAutomatically.

Definition disconnect : M unit := close closedByRequest.

Definition play : M unit :=
  _onStreamLoading ;;
  call playStream.

Definition checkForAutoConnect : M unit :=
  auto <- isFlagEnabled Flags.AutoConnect ;;
  if auto
  then _onWebRtcAutoConnect ;; connectToSignallingServer
  else ret tt.

Definition setWebRtcPlayerController : M unit :=
  codec <- gets (fun w => preferredCodec (config w)) ;;
  call (setPreferredCodec codec) ;;
  call resizePlayerStyle ;;
  checkForAutoConnect.

(** The controller as [new WebRtcPlayerController(config, this)] leaves it:
    nothing connected, nothing received, no override message set. *)
Definition newController : Controller :=
  {| isQualityController := false;
     disconnectMessageOverride := js_undefined;
     videoAvgQp := 0;
     isVideoReady := false;
     sessionState := Idle;
     rendezvous := NoChannel;
     streamerDirectory := [];
     selectedStreamer := None;
     wasPreviouslyConnected := false;
     peerSession := false;
     remoteDescription := None;
     pendingCandidates := [];
     peerMetrics := 0;
     dataChannelOpen := false;
     allowConsoleCommands := false;
     statsTimer := None;
     reconnectTimer := None |}.

(** [new PixelStreaming(config)] at clock time [t]: the field initialisers,
    then [configureSettings] (the listeners above) and
    [setWebRtcPlayerController]. *)
Definition constructor (cfg : Config) (t : Z) : World :=
  exec setWebRtcPlayerController
    {| config := cfg;
       webRtcController := newController;
       _showActionOrErrorOnDisconnect := true;
       _videoStartTime := None;
       _inputController := None;
       now := t;
       trace := [] |}.

(** ** Executions

    Everything that can happen to the object, one stimulus at a time
    (section 5: each handler runs to completion before the next starts).
    Frames arrive only on a channel that is open.  The public
    [dispatchEvent], with which an application sends events of its own
    through the emitter of the object, is not among the inputs: the trace
    holds what the object does of itself. *)

Inductive Input :=
| api_connect
| api_reconnect
| api_disconnect
| api_play
| api_emitConsoleCommand (command : string)
| api_requestLatencyTest
| api_requestShowFps
| api_requestIframe
| api_setFlagEnabled (id : Flags.t) (value : bool)
| api_setNumericSetting (id : NumericParameters.t) (value : Z)
| ws_opened
| ws_Config
| ws_StreamerList (ids : list string)
| ws_Offer (sdp : string)
| ws_IceCandidate (candidate : string)
| pc_connected
| pc_failed
| pc_dataChannelOpen
| dc_InitialSettings (settings : InitialSettings.t)
| dc_InputControlOwnership (owned : bool)
| dc_QualityControlOwnership (granted : bool)
| video_initialized
| elapse (ms : nat).

Definition channel_is (s : ChannelState) (c : Controller) : bool :=
  match rendezvous c, s with
  | NoChannel, NoChannel
  | ChannelConnecting, ChannelConnecting
  | ChannelOpen, ChannelOpen
  | ChannelClosed, ChannelClosed => true
  | _, _ => false
  end.

Definition when (b : bool) (m : M unit) : M unit :=
  if b then m else ret tt.

Definition onFrame (m : M unit) : M unit :=
  isOpen <- getsController (channel_is ChannelOpen) ;;
  when isOpen m.

Definition onSideChannelFrame (m : M unit) : M unit :=
  isOpen <- getsController dataChannelOpen ;;
  when isOpen m.

Definition step (i : Input) : M unit :=
  match i with
  | api_connect => connect
  | api_reconnect => reconnect
  | api_disconnect => disconnect
  | api_play => play
  | api_emitConsoleCommand command => emitConsoleCommand command
  | api_requestLatencyTest => _ <- requestLatencyTest ;; ret tt
  | api_requestShowFps => _ <- requestShowFps ;; ret tt
  | api_requestIframe => _ <- requestIframe ;; ret tt
  | api_setFlagEnabled id value => setFlagEnabled id value
  | api_setNumericSetting id value => setNumericSetting id value
  | ws_opened =>
      connecting <- getsController (channel_is ChannelConnecting) ;;
      when connecting onChannelOpened
  | ws_Config => onFrame onConfig
  | ws_StreamerList ids => onFrame (onStreamerList ids)
  | ws_Offer sdp => onFrame (onOffer sdp)
  | ws_IceCandidate candidate => onFrame (onIceCandidate candidate)
  | pc_connected => onConnectivityConnected
  | pc_failed => onConnectivityFailed
  | pc_dataChannelOpen => onDataChannelOpen
  | dc_InitialSettings settings =>
      onSideChannelFrame (onInitialSettingsMessage settings)
  | dc_InputControlOwnership owned =>
      onSideChannelFrame (_onInputControlOwnership owned)
  | dc_QualityControlOwnership granted =>
      onSideChannelFrame (onQualityControlOwnershipMessage granted)
  | video_initialized => _onVideoInitialized
  | elapse ms => advanceTimersByTime ms
  end.

Fixpoint run (inputs : list Input) : M unit :=
  match inputs with
  | [] => ret tt
  | i :: rest => step i ;; run rest
  end.

(** ** Reading a trace *)


Definition statsEvents (t : list Effect) : list AggregatedStats :=
  flat_map
    (fun e => match e with Dispatch (StatsReceivedEvent s) => [s] | _ => [] end)
    t.

Definition remoteDescriptions (t : list Effect) : list string :=
  flat_map (fun e => match e with SetRemoteDescription s => [s] | _ => [] end) t.

Definition sdpEvents (t : list Effect) : nat :=
  List.length
    (filter
       (fun e => match e with Dispatch WebRtcSdpEvent => true | _ => false end)
       t).

Definition subscriptions (t : list Effect) : list string :=
  flat_map (fun e => match e with Send (Subscribe id) => [id] | _ => [] end) t.

Definition discoveries (t : list Effect) : list (list string * option string) :=
  flat_map
    (fun e =>
       match e with
       | Dispatch (StreamerListMessageEvent ids sel) => [(ids, sel)]
       | _ => []
       end) t.

Definition ownershipRequests (t : list Effect) : nat :=
  List.length
    (filter
       (fun e =>
          match e with
          | Call sendRequestQualityControlOwnership => true
          | _ => false
          end) t).

Definition opens (t : list Effect) : nat :=
  List.length (filter (fun e => match e with OpenChannel => true | _ => false end) t).

Definition closes (t : list Effect) : nat :=
  List.length
    (filter
       (fun e =>
          match e with CloseChannel | ClosePeerSession => true | _ => false end)
       t).

Definition autoConnectEvents (t : list Effect) : nat :=
  List.length
    (filter
       (fun e =>
          match e with Dispatch WebRtcAutoConnectEvent => true | _ => false end)
       t).

(** ** Worlds and inputs used as examples *)

Definition defaultConfig : Config :=
  {| flags := fun _ => false;
     flagLabels := fun _ => "";
     numericParameters := fun _ => 0;
     preferredCodec := "" |}.

(** [new Config({ initialSettings: { AutoConnect: true } })] *)
Definition autoConnectConfig : Config :=
  with_flags (fun k => Flags.eqb k Flags.AutoConnect) defaultConfig.


(** The arrival of an [Offer]. *)
Definition is_offer (i : Input) : bool :=
  match i with ws_Offer _ => true | _ => false end.

(** The connectivity callback reporting "connected". *)
Definition is_connected_report (i : Input) : bool :=
  match i with pc_connected => true | _ => false end.

(** An initial-settings message that carries only the permission flag. *)
Definition settingsWith (allow : bool) : InitialSettings.t :=
  {| InitialSettings.PixelStreamingSettings :=
       Some {| AllowPixelStreamingCommands := Some allow |};
     InitialSettings.EncoderSettings := None;
     InitialSettings.WebRTCSettings := None |}.

(** A session brought up to an open side channel: connect, channel open,
    configuration, one streamer, offer, connectivity, data channel. *)
Definition bringUp : list Input :=
  [ api_connect; ws_opened; ws_Config; ws_StreamerList ["streamer"];
    ws_Offer "v=0"; pc_connected; pc_dataChannelOpen ].

(** ** Predicates used in the statements *)

(** The message a disconnected event carries. *)
Definition disconnectText (o : JsString) (eventString : string) : string :=
  match o with
  | js_string s => if (s =? "")%string then eventString else s
  | _ => eventString
  end.


(** The subscriptions one [StreamerList] message causes. *)
Definition subscribed (ids : list string) : list string :=
  match autoSelect ids with
  | Some id => [id]
  | None => []
  end.

(** The session is not [Connected], and the snapshots emitted so far are
    [snapshots]. *)
Definition not_polling (snapshots : list AggregatedStats) (w : World) : Prop :=
  is_Connected (sessionState (webRtcController w)) = false
  /\ statsEvents (trace w) = snapshots.

(** An input that leaves a [Connected] session [Connected]: not a call that
    opens or closes the channel, not a failure report, not a message that
    starts the discovery or the negotiation again. *)
Definition keeps_session (i : Input) : bool :=
  match i with
  | api_connect | api_reconnect | api_disconnect
  | ws_opened | ws_Offer _ | pc_failed => false
  | ws_StreamerList ids =>
      match autoSelect ids with Some _ => false | None => true end
  | _ => true
  end.

(** The milliseconds that pass in a sequence of inputs. *)
Definition elapsedMs (inputs : list Input) : nat :=
  fold_right
    (fun i total => match i with elapse ms => ms + total | _ => total end)%nat
    0%nat inputs.

(** The statistics timer of a [Connected] session fired [since] ms ago (or
    was armed then), and no reconnect is pending. *)
Definition polling (since : nat) (w : World) : Prop :=
  let c := webRtcController w in
  sessionState c = Connected
  /\ statsTimer c = Some (statsInterval - since)%nat
  /\ (since < statsInterval)%nat
  /\ reconnectTimer c = None.

(** What the trace says about the rendezvous channel: whether the last
    thing done to it was to open it. *)
Definition channelUp (t : list Effect) : bool :=
  fold_left
    (fun up e =>
       match e with
       | OpenChannel => true
       | CloseChannel => false
       | _ => up
       end) t false.

(** What the trace says about the session: whether a connected event was
    ever emitted. *)
Definition everConnected (t : list Effect) : bool :=
  existsb
    (fun e =>
       match e with Dispatch WebRtcConnectedEvent => true | _ => false end)
    t.

(** The trace and the controller agree on whether the connection is up. *)
Definition channel_as_traced (w : World) : Prop :=
  channelUp (trace w) = connectionUp (webRtcController w).

(** The trace and the controller agree on whether the session was ever
    connected. *)
Definition flag_as_traced (w : World) : Prop :=
  everConnected (trace w) = wasPreviouslyConnected (webRtcController w).

(** A [Connected] session was connected. *)
Definition connected_has_flag (w : World) : Prop :=
  wasPreviouslyConnected (webRtcController w)
  || negb (is_Connected (sessionState (webRtcController w))) = true.

(** Whether [reconnect] closes first and reopens after the delay. *)
Definition deferred (c : Controller) : bool :=
  connectionUp c || wasPreviouslyConnected c.

(** ** Further readings of a trace, and sequences of callbacks *)

(** The encoder settings handed to [sendEncoderSettings], oldest first. *)
Definition encoderMessages (t : list Effect) : list EncoderSettings :=
  flat_map
    (fun e => match e with Call (sendEncoderSettings s) => [s] | _ => [] end) t.

(** The WebRTC settings handed to [sendWebRtcSettings], oldest first. *)
Definition webRtcMessages (t : list Effect) : list WebRTCSettings :=
  flat_map
    (fun e => match e with Call (sendWebRtcSettings s) => [s] | _ => [] end) t.

(** A bitrate whose product with 1000 a double holds exactly. *)
Definition exact_bitrate (kilobits : Z) : Prop :=
  Z.abs (kilobits * 1000) < 2 ^ 53.

(** A numeric configuration with one setting replaced. *)
Definition override
    (numeric : NumericParameters.t -> Z) (id : NumericParameters.t) (value : Z)
    (k : NumericParameters.t) : Z :=
  if NumericParameters.eqb k id then value else numeric k.

(** The calls of [activateRegisterMouse]. *)
Definition registerMouseCalls (t : list Effect) : nat :=
  List.length
    (filter
       (fun e => match e with Call activateRegisterMouse => true | _ => false end)
       t).

(** The WebRTC settings message that describes a configuration: frames per
    second as they are, bitrates multiplied by 1000. *)
Definition webRtcSettingsOf (numeric : NumericParameters.t -> Z)
    : WebRTCSettings :=
  {| FPS := numeric NumericParameters.WebRTCFPS;
     MinBitrate := numeric NumericParameters.WebRTCMinBitrate * 1000;
     MaxBitrate := numeric NumericParameters.WebRTCMaxBitrate * 1000 |}.

(** The encoder settings message that describes a configuration. *)
Definition encoderSettingsOf (numeric : NumericParameters.t -> Z)
    : EncoderSettings :=
  {| MinQP := numeric NumericParameters.MinQP;
     MaxQP := numeric NumericParameters.MaxQP |}.

Definition is_QP (id : NumericParameters.t) : bool :=
  match id with
  | NumericParameters.MinQP | NumericParameters.MaxQP => true
  | _ => false
  end.

(** Statistics callbacks, each arriving at its own clock time. *)
Fixpoint statsCallbacks (calls : list (Z * AggregatedStats)) : M unit :=
  match calls with
  | [] => ret tt
  | (t, videoStats) :: rest =>
      modify (with_now t) ;;
      _onVideoStats videoStats ;;
      statsCallbacks rest
  end.

(** The snapshot a statistics callback at clock [t] emits for a session that
    started at [start]. *)
Definition snapshotAt (start : Z) (w : World) (call : Z * AggregatedStats)
    : AggregatedStats :=
  {| bytesReceived := bytesReceived (snd call);
     sessionStats :=
       Some {| runTime := Some (fst call - start);
               controlsStreamInput := _inputController w;
               videoEncoderAvgQP := videoAvgQp (webRtcController w) |} |}.

(** Input-control-ownership reports, in the order received. *)
Fixpoint inputControlReports (owned : list bool) : M unit :=
  match owned with
  | [] => ret tt
  | b :: rest => _onInputControlOwnership b ;; inputControlReports rest
  end.

(** Whether the emitted snapshots say that input control is held. *)
Definition reportedInputControl (t : list Effect) : list (option bool) :=
  flat_map
    (fun s =>
       match sessionStats s with
       | Some session => [controlsStreamInput session]
       | None => []
       end) (statsEvents t).

(** The label the [HoveringMouseMode] listener gives the flag. *)
Definition controlSchemeLabel (isHoveringMouse : bool) : string :=
  if isHoveringMouse then "Control Scheme: Hovering Mouse"
  else "Control Scheme: Locked Mouse".

(** ** The element that holds the video

    The field [_videoElementParent], the constructor's handling of
    [overrides.videoElementParent], and the getter [videoElementParent],
    which creates the element on demand.  The document is represented by the
    number of elements it has created; an element by the serial number it got
    from its document ([None] for one that came from outside), its tag and its
    [id] attribute. *)

Module VideoElementParent.

Record HTMLElement := {
  serial : option nat;
  tagName : string;
  id : string
}.

Record State := {
  _videoElementParent : option HTMLElement;   (* undefined until set *)
  document : nat                              (* elements created so far *)
}.

(** [document.createElement(tag)] *)
Definition createElement (tag : string) (s : State) : HTMLElement * State :=
  ({| serial := Some (document s); tagName := tag; id := "" |},
   {| _videoElementParent := _videoElementParent s;
      document := S (document s) |}).

(** The constructor: [if (overrides?.videoElementParent)] the element given
    is taken over. *)
Definition construct (overrides : option HTMLElement) (created : nat) : State :=
  {| _videoElementParent := overrides; document := created |}.

(** [get videoElementParent()] *)
Definition videoElementParent (s : State) : HTMLElement * State :=
  match _videoElementParent s with
  | None =>
      let (div, s1) := createElement "div" s in
      let div := {| serial := serial div; tagName := tagName div;
                    id := "videoElementParent" |} in
      (div, {| _videoElementParent := Some div; document := document s1 |})
  | Some element => (element, s)
  end.

(** The getter, called [n] times in a row; the elements it returned. *)
Fixpoint accesses (n : nat) (s : State) : list HTMLElement * State :=
  match n with
  | O => ([], s)
  | S k =>
      let (element, s1) := videoElementParent s in
      let (rest, s2) := accesses k s1 in
      (element :: rest, s2)
  end.

End VideoElementParent.

(** * Properties *)

(** ** Reasoning about computations *)

Lemma exec_bind {A B : Type} (m : M A) (k : A -> M B) (w : World) :
  exec (bind m k) w = exec (k (eval m w)) (exec m w).
Proof. reflexivity. Qed.

Lemma exec_run_cons (i : Input) (rest : list Input) (w : World) :
  exec (run (i :: rest)) w = exec (run rest) (exec (step i) w).
Proof. reflexivity. Qed.

Lemma exec_run_app (xs ys : list Input) (w : World) :
  exec (run (xs ++ ys)) w = exec (run ys) (exec (run xs) w).
Proof.
  revert w; induction xs as [|i xs IH]; intros w; [reflexivity|].
  simpl app. rewrite !exec_run_cons. apply IH.
Qed.

Lemma exec_advance_S (n : nat) (w : World) :
  exec (advanceTimersByTime (S n)) w
  = exec (advanceTimersByTime n) (exec tick w).
Proof. reflexivity. Qed.

Lemma exec_advance_add (a b : nat) (w : World) :
  exec (advanceTimersByTime (a + b)) w
  = exec (advanceTimersByTime b) (exec (advanceTimersByTime a) w).
Proof.
  revert w; induction a as [|a IH]; intros w; [reflexivity|].
  simpl Nat.add. rewrite !exec_advance_S. apply IH.
Qed.

(** Take a world apart into its fields. *)
Ltac open_world w :=
  let cfg := fresh "cfg" in
  let ctl := fresh "ctl" in
  destruct w as [cfg ctl show start ic clk tr];
  destruct ctl as [qc ovr qp ready st rv dir sel was peer rd pend pm dco allow
                   stt rct];
  destruct cfg as [fl lbl num codec];
  cbn [config webRtcController _showActionOrErrorOnDisconnect _videoStartTime
       _inputController now trace flags flagLabels numericParameters
       preferredCodec isQualityController disconnectMessageOverride videoAvgQp
       isVideoReady sessionState rendezvous streamerDirectory selectedStreamer
       wasPreviouslyConnected peerSession remoteDescription pendingCandidates
       peerMetrics dataChannelOpen allowConsoleCommands statsTimer
       reconnectTimer] in *.

(** Run the handlers on an opened world, keeping list and number operations
    folded, and split on every test that is left. *)
Ltac run_ops :=
  cbv - [app flat_map filter existsb List.length map fold_left Z.add Z.sub
         Z.mul Z.eqb String.eqb String.append Nat.leb Nat.pred Nat.add Nat.sub
         Nat.div Nat.modulo advanceTimersByTime js_mul].

Ltac crunch :=
  run_ops;
  repeat (match goal with
          | |- context [match ?x with _ => _ end] => is_var x; destruct x
          | |- context [Nat.leb ?a ?b] => destruct (Nat.leb a b) eqn:?
          | |- context [Z.eqb ?a ?b] => destruct (Z.eqb a b) eqn:?
          | |- context [String.eqb ?a ?b] => destruct (String.eqb a b) eqn:?
          end; run_ops).

(** ** Requests (C10) *)

(** C10. Each of [requestLatencyTest], [requestShowFps] and [requestIframe]
    returns [false] and leaves the whole state as it was when the video is not
    ready; when it is ready the call returns [true] and the only change is the
    corresponding send, appended to the trace. *)
Theorem C10_requests_need_video_ready (w : World) :
  requestLatencyTest w
  = (if isVideoReady (webRtcController w)
     then (true, with_trace (trace w ++ [Call sendLatencyTest]) w)
     else (false, w))
  /\ requestShowFps w
     = (if isVideoReady (webRtcController w)
        then (true, with_trace (trace w ++ [Call sendShowFps]) w)
        else (false, w))
  /\ requestIframe w
     = (if isVideoReady (webRtcController w)
        then (true, with_trace (trace w ++ [Call sendIframeRequest]) w)
        else (false, w)).
Proof.
  unfold requestLatencyTest, requestShowFps, requestIframe, bind,
    getsController, gets, call, emit, modify, ret; cbn [fst snd].
  destruct (isVideoReady (webRtcController w)); cbn; repeat split.
Qed.

(** ** Disconnecting (C9) *)

Lemma override_test (o : JsString) :
  loose_ne_empty o && strict_ne_undefined o && loose_ne_null o
  = match o with
    | js_string s => negb (s =? "")%string
    | _ => false
    end.
Proof. destruct o as [| |s]; cbn; [reflexivity..|]. now rewrite !andb_true_r. Qed.

Lemma onDisconnect_spec (w : World) (eventString : string) :
  exec (_onDisconnect eventString) w
  = with__showActionOrErrorOnDisconnect true
      (with_trace
         (trace w ++
            [Dispatch
               (WebRtcDisconnectedEvent
                  (disconnectText (disconnectMessageOverride (webRtcController w))
                     eventString)
                  (_showActionOrErrorOnDisconnect w))])
         (with_webRtcController
            (with_disconnectMessageOverride
               (match disconnectMessageOverride (webRtcController w) with
                | js_string _ => js_string ""
                | o => o
                end) (webRtcController w)) w)).
Proof.
  open_world w.
  unfold _onDisconnect, exec, bind, getDisconnectMessageOverride,
    setDisconnectMessageOverride, getsController, modifyController, gets,
    modify, dispatchEvent, emit, ret; cbn.
  rewrite override_test.
  destruct ovr as [| |s]; cbn; try (destruct show; reflexivity).
  destruct (String.eqb_spec s ""); subst; cbn; destruct show; reflexivity.
Qed.

(** C9, as amended. After [_onDisconnect(eventString)] the flag
    [_showActionOrErrorOnDisconnect] is true and the override is no longer a
    non-empty string: a string override has become [''], an override that was
    [undefined] or [null] is left as it was. The event carries the override
    when that was a non-empty string and [eventString] otherwise, with the
    flag as it was at entry; the next disconnected event carries its own
    [eventString] and [true]. *)
Theorem C9_onDisconnect_resets_override_and_flag
    (w : World) (eventString next : string) :
  let o := disconnectMessageOverride (webRtcController w) in
  let w' := exec (_onDisconnect eventString) w in
  _showActionOrErrorOnDisconnect w' = true
  /\ disconnectMessageOverride (webRtcController w')
     = match o with js_string _ => js_string "" | _ => o end
  /\ trace w'
     = trace w ++
       [Dispatch
          (WebRtcDisconnectedEvent (disconnectText o eventString)
             (_showActionOrErrorOnDisconnect w))]
  /\ trace (exec (_onDisconnect next) w')
     = trace w' ++ [Dispatch (WebRtcDisconnectedEvent next true)].
Proof.
  cbv zeta. rewrite !onDisconnect_spec.
  open_world w; cbn.
  repeat split.
  all: destruct ovr; try reflexivity.
Qed.

(** C9, as stated, fails when no override was ever set: the override is
    [undefined] before the call and still [undefined], not [''], after it. *)
Lemma C9_override_stays_undefined :
  let w := constructor defaultConfig 0 in
  disconnectMessageOverride (webRtcController w) = js_undefined
  /\ disconnectMessageOverride
       (webRtcController (exec (_onDisconnect "closed") w))
     <> js_string "".
Proof. cbn. split; [reflexivity | discriminate]. Qed.

(** ** Statistics callback (C8) *)

Lemma onVideoStats_spec (w : World) (videoStats : AggregatedStats) :
  let start :=
    if unset_time (_videoStartTime w) then Some (now w)
    else _videoStartTime w in
  exec (_onVideoStats videoStats) w
  = with_trace
      (trace w ++
         [Dispatch
            (StatsReceivedEvent
               {| bytesReceived := bytesReceived videoStats;
                  sessionStats :=
                    Some {| runTime :=
                              option_map (fun t => now w - t) start;
                            controlsStreamInput := _inputController w;
                            videoEncoderAvgQP :=
                              videoAvgQp (webRtcController w) |} |})])
      (with__videoStartTime start w).
Proof.
  open_world w.
  unfold _onVideoStats, handleSessionStatistics, exec, bind, Date_now,
    getsController, gets, modify, dispatchEvent, emit, ret; cbn.
  destruct (unset_time start); reflexivity.
Qed.

(** C8. When [_onVideoStats] runs while [_videoStartTime] is unset, the start
    time becomes the current clock time before the session statistics are
    computed: the duration in the emitted snapshot is a number, and it is
    zero. Whatever the start time was, the duration emitted is a number,
    never the result of subtracting an unset start time. *)
Theorem C8_stats_before_video_initialized
    (w : World) (videoStats : AggregatedStats) :
  unset_time (_videoStartTime w) = true ->
  let w' := exec (_onVideoStats videoStats) w in
  _videoStartTime w' = Some (now w)
  /\ statsEvents (trace w')
     = statsEvents (trace w) ++
       [ {| bytesReceived := bytesReceived videoStats;
            sessionStats :=
              Some {| runTime := Some 0;
                      controlsStreamInput := _inputController w;
                      videoEncoderAvgQP := videoAvgQp (webRtcController w) |} |} ]
  /\ forall (v : World) (s : AggregatedStats),
       exists start : Z,
         _videoStartTime (exec (_onVideoStats s) v) = Some start
         /\ statsEvents (trace (exec (_onVideoStats s) v))
            = statsEvents (trace v) ++
              [ {| bytesReceived := bytesReceived s;
                   sessionStats :=
                     Some {| runTime := Some (now v - start);
                             controlsStreamInput := _inputController v;
                             videoEncoderAvgQP :=
                               videoAvgQp (webRtcController v) |} |} ].
Proof.
  intros Hunset; cbv zeta.
  rewrite onVideoStats_spec, Hunset.
  unfold statsEvents; cbn [trace with_trace with__videoStartTime _videoStartTime].
  rewrite flat_map_app; cbn [flat_map option_map app].
  rewrite Z.sub_diag.
  repeat split.
  intros v s. rewrite onVideoStats_spec.
  cbn [trace with_trace with__videoStartTime _videoStartTime].
  rewrite flat_map_app; cbn [flat_map app].
  destruct (unset_time (_videoStartTime v)) eqn:Hv.
  - exists (now v); split; reflexivity.
  - destruct (_videoStartTime v) as [t|] eqn:Ht; [|discriminate Hv].
    exists t; split; reflexivity.
Qed.

(** C8 on the object as constructed, before any video-initialized event. *)
Lemma C8_stats_before_video_initialized_witness :
  let w := constructor defaultConfig 1700000000000 in
  let w' := exec (_onVideoStats {| bytesReceived := 123; sessionStats := None |}) w in
  unset_time (_videoStartTime w) = true
  /\ _videoStartTime w' = Some 1700000000000
  /\ statsEvents (trace w')
     = [ {| bytesReceived := 123;
            sessionStats :=
              Some {| runTime := Some 0;
                      controlsStreamInput := None;
                      videoEncoderAvgQP := 0 |} |} ].
Proof.
  cbv zeta. split; [reflexivity|].
  pose proof (C8_stats_before_video_initialized
                (constructor defaultConfig 1700000000000)
                {| bytesReceived := 123; sessionStats := None |}
                eq_refl) as [H1 [H2 _]].
  split; [exact H1 | exact H2].
Defined.

(** ** Quality-control ownership (C7) *)

Lemma ownershipRequests_app (a b : list Effect) :
  ownershipRequests (a ++ b) = (ownershipRequests a + ownershipRequests b)%nat.
Proof. unfold ownershipRequests. now rewrite filter_app, length_app. Qed.

(** C7. Writing [value] to the [IsQualityController] setting sends exactly one
    ownership request when [value] is true and the controller is not the
    quality controller, and none otherwise (already owner, or [value] false);
    the request comes from the listener the class registered, and the setting
    then holds [value]. An inbound ownership report
    ([_onQualityControlOwnership]) leaves the setting equal to the ownership
    the server granted. *)
Theorem C7_quality_control_ownership (w : World) (value granted : bool) :
  let request :=
    if value && negb (isQualityController (webRtcController w))
    then [Call sendRequestQualityControlOwnership] else [] in
  let w0 := exec (configureSettings_flag Flags.IsQualityController value) w in
  let w1 := exec (setFlagEnabled Flags.IsQualityController value) w in
  let w2 := exec (_onQualityControlOwnership granted) w in
  trace w0 = trace w ++ request
  /\ flags (config w1) Flags.IsQualityController = value
  /\ ownershipRequests (trace w1)
     = (ownershipRequests (trace w) + List.length request)%nat
  /\ flags (config w2) Flags.IsQualityController = granted.
Proof.
  open_world w.
  destruct value, granted, qc;
    cbv - [app filter List.length Nat.add ownershipRequests];
    rewrite ?ownershipRequests_app, ?app_nil_r; cbn; repeat split; lia.
Qed.

(** ** Initial settings (C1) *)

(** C1 (what the code does). When the initial settings carry WebRTC settings,
    [_onInitialSettings] leaves the message's [MaxBitrate] in the
    [WebRTCMinBitrate] setting, overwriting the [MinBitrate] just stored
    there, and never writes [WebRTCMaxBitrate], which keeps its old value;
    [FPS] is stored in [WebRTCFPS]. *)
Theorem C1_max_bitrate_lands_in_min_setting
    (w : World) (p : option PixelStreamingSettings)
    (e : option EncoderSettings) (r : WebRTCSettings) :
  let settings :=
    {| InitialSettings.PixelStreamingSettings := p;
       InitialSettings.EncoderSettings := e;
       InitialSettings.WebRTCSettings := Some r |} in
  let w' := exec (_onInitialSettings settings) w in
  numericParameters (config w') NumericParameters.WebRTCMinBitrate
  = MaxBitrate r
  /\ numericParameters (config w') NumericParameters.WebRTCMaxBitrate
     = numericParameters (config w) NumericParameters.WebRTCMaxBitrate
  /\ numericParameters (config w') NumericParameters.WebRTCFPS = FPS r.
Proof.
  open_world w.
  destruct p as [perm|], e as [enc|]; cbv - [Z.mul]; repeat split.
Qed.

(** C1 on a concrete message: minimum 1000, maximum 5000, 60 frames. The
    [WebRTCMinBitrate] setting ends at 5000 and [WebRTCMaxBitrate] stays 0. *)
Lemma C1_failing_input :
  let settings :=
    {| InitialSettings.PixelStreamingSettings := None;
       InitialSettings.EncoderSettings := None;
       InitialSettings.WebRTCSettings :=
         Some {| FPS := 60; MinBitrate := 1000; MaxBitrate := 5000 |} |} in
  let w' := exec (_onInitialSettings settings) (constructor defaultConfig 0) in
  numericParameters (config w') NumericParameters.WebRTCMinBitrate = 5000
  /\ numericParameters (config w') NumericParameters.WebRTCMaxBitrate = 0
  /\ numericParameters (config w') NumericParameters.WebRTCFPS = 60.
Proof. cbv zeta. vm_compute. repeat split. Qed.

(** ** Invariants of executions *)

Section Preservation.

Variable Inv : World -> Prop.
Variable allowed : Input -> bool.

Lemma advance_preserves :
  (forall w, Inv w -> Inv (exec tick w)) ->
  forall ms w, Inv w -> Inv (exec (advanceTimersByTime ms) w).
Proof.
  intros Htick ms; induction ms as [|ms IH]; intros w Hw; [exact Hw|].
  rewrite exec_advance_S. apply IH, Htick, Hw.
Qed.

Lemma run_preserves :
  (forall i w, allowed i = true -> Inv w -> Inv (exec (step i) w)) ->
  forall inputs w,
    forallb allowed inputs = true -> Inv w -> Inv (exec (run inputs) w).
Proof.
  intros Hstep inputs; induction inputs as [|i rest IH]; intros w Hall Hw;
    [exact Hw|].
  cbn [forallb] in Hall. apply andb_true_iff in Hall as [Hi Hrest].
  rewrite exec_run_cons. apply IH; [exact Hrest|]. now apply Hstep.
Qed.

End Preservation.

(** Flushed candidates are invisible to every reading of the trace. *)
Lemma flat_map_candidates {B : Type} (f : Effect -> list B) (l : list string) :
  (forall c, f (AddIceCandidate c) = []) ->
  flat_map f (map AddIceCandidate l) = [].
Proof.
  intros Hf; induction l as [|c l IH]; [reflexivity|].
  cbn [map flat_map]. now rewrite Hf, IH.
Qed.

Lemma filter_candidates (p : Effect -> bool) (l : list string) :
  (forall c, p (AddIceCandidate c) = false) ->
  filter p (map AddIceCandidate l) = [].
Proof.
  intros Hp; induction l as [|c l IH]; [reflexivity|].
  cbn [map filter]. now rewrite Hp, IH.
Qed.

Ltac read_trace :=
  rewrite ?flat_map_app, ?filter_app, ?length_app;
  rewrite ?flat_map_candidates, ?filter_candidates by (intros; reflexivity);
  cbn [flat_map filter List.length app];
  rewrite ?app_nil_r, ?Nat.add_0_r.

Ltac leb_facts :=
  repeat match goal with
         | H : (_ <=? _)%nat = true |- _ => apply Nat.leb_le in H
         | H : (_ <=? _)%nat = false |- _ => apply Nat.leb_gt in H
         end.

(** ** Console commands (C4) *)










(** ** Offers (C6) *)

Lemma tick_sdpEvents (n : nat) (w : World) :
  sdpEvents (trace w) = n -> sdpEvents (trace (exec tick w)) = n.
Proof.
  open_world w. intros <-. unfold sdpEvents.
  crunch; read_trace; reflexivity.
Qed.

Lemma step_sdpEvents (n : nat) (i : Input) (w : World) :
  negb (is_offer i) = true ->
  sdpEvents (trace w) = n -> sdpEvents (trace (exec (step i) w)) = n.
Proof.
  intros Hi Hw.
  destruct i; try discriminate Hi;
    try (cbn [step];
         apply (advance_preserves (fun v => sdpEvents (trace v) = n));
         [apply tick_sdpEvents | exact Hw]).
  all: revert Hw; open_world w; intros <-; unfold sdpEvents.
  all: crunch; read_trace; reflexivity.
Qed.

(** C6. An [Offer] that arrives on the open channel of a controller with a
    Peer Session makes exactly one remote-description-set call, whose sdp is
    the one of the offer, and one sdp-exchanged event; in an execution without
    an [Offer] no sdp-exchanged event is emitted. *)
Theorem C6_offer_sets_remote_description
    (w : World) (sdp : string) (before : list Input) (v : World) :
  rendezvous (webRtcController w) = ChannelOpen ->
  peerSession (webRtcController w) = true ->
  forallb (fun i => negb (is_offer i)) before = true ->
  let w' := exec (step (ws_Offer sdp)) w in
  remoteDescriptions (trace w') = remoteDescriptions (trace w) ++ [sdp]
  /\ sdpEvents (trace w') = S (sdpEvents (trace w))
  /\ remoteDescription (webRtcController w') = Some sdp
  /\ sdpEvents (trace (exec (run before) v)) = sdpEvents (trace v).
Proof.
  intros Hopen Hpeer Hbefore; cbv zeta.
  repeat split.
  4: { apply (run_preserves (fun u => sdpEvents (trace u) = sdpEvents (trace v))
                (fun i => negb (is_offer i)));
       [intros i u; apply step_sdpEvents | exact Hbefore | reflexivity]. }
  all: revert Hopen Hpeer; open_world w; intros -> ->.
  all: unfold remoteDescriptions, sdpEvents; crunch; read_trace; try reflexivity.
  lia.
Qed.

(** C6 on the offer that follows configuration and a single streamer. *)
Lemma C6_offer_sets_remote_description_witness :
  let v := constructor autoConnectConfig 0 in
  let before := [ws_opened; ws_Config; ws_StreamerList ["streamer"]] in
  let w := exec (run before) v in
  let w' := exec (step (ws_Offer "v=0")) w in
  remoteDescriptions (trace w') = remoteDescriptions (trace w) ++ ["v=0"]
  /\ sdpEvents (trace w') = S (sdpEvents (trace w))
  /\ remoteDescription (webRtcController w') = Some "v=0"
  /\ sdpEvents (trace (exec (run before) v)) = sdpEvents (trace v).
Proof.
  exact (C6_offer_sets_remote_description
           (exec (run [ws_opened; ws_Config; ws_StreamerList ["streamer"]])
              (constructor autoConnectConfig 0))
           "v=0"
           [ws_opened; ws_Config; ws_StreamerList ["streamer"]]
           (constructor autoConnectConfig 0)
           eq_refl eq_refl eq_refl).
Defined.

(** ** Streamer lists (C3) *)

Lemma autoSelect_iff (ids : list string) :
  (exists id, autoSelect ids = Some id) <-> List.length ids = 1%nat.
Proof.
  destruct ids as [|a [|b rest]]; cbn; split;
    try (intros [id H]; discriminate H); try discriminate; eauto.
Qed.

Lemma onStreamerList_frame (ids : list string) (w : World) :
  rendezvous (webRtcController w) = ChannelOpen ->
  let w' := exec (step (ws_StreamerList ids)) w in
  rendezvous (webRtcController w') = ChannelOpen
  /\ subscriptions (trace w') = subscriptions (trace w) ++ subscribed ids
  /\ discoveries (trace w')
     = discoveries (trace w) ++ [(ids, autoSelect ids)]
  /\ selectedStreamer (webRtcController w')
     = match autoSelect ids with
       | Some id => Some id
       | None => selectedStreamer (webRtcController w)
       end.
Proof.
  open_world w. intros ->. cbv zeta.
  unfold subscriptions, discoveries, subscribed.
  destruct ids as [|a [|b rest]]; run_ops; read_trace; repeat split.
Qed.

Lemma streamer_lists_run (lists : list (list string)) (w : World) :
  rendezvous (webRtcController w) = ChannelOpen ->
  let w' := exec (run (map ws_StreamerList lists)) w in
  rendezvous (webRtcController w') = ChannelOpen
  /\ subscriptions (trace w')
     = subscriptions (trace w) ++ flat_map subscribed lists
  /\ discoveries (trace w')
     = discoveries (trace w) ++ map (fun ids => (ids, autoSelect ids)) lists.
Proof.
  revert w; induction lists as [|ids lists IH]; intros w Hopen; cbv zeta.
  - cbn [map flat_map]. rewrite !app_nil_r. repeat split. exact Hopen.
  - cbn [map flat_map]. rewrite exec_run_cons.
    destruct (onStreamerList_frame ids w Hopen) as (Hopen' & Hsub & Hdis & _).
    destruct (IH _ Hopen') as (H1 & H2 & H3).
    rewrite H2, H3, Hsub, Hdis, <- !app_assoc. repeat split. exact H1.
Qed.

(** C3. Whatever [StreamerList] messages were received before, the most
    recent one selects a streamer and sends a [Subscribe] for it exactly when
    it holds a single identifier, which is then the one selected; every
    message is answered by one discovery event that carries the full list
    received and the auto-selected id, or none. *)
Theorem C3_auto_selection_follows_latest_list
    (w : World) (earlier : list (list string)) (ids : list string) :
  rendezvous (webRtcController w) = ChannelOpen ->
  let w1 := exec (run (map ws_StreamerList earlier)) w in
  let w2 := exec (step (ws_StreamerList ids)) w1 in
  ((exists id, autoSelect ids = Some id) <-> List.length ids = 1%nat)
  /\ (forall id, autoSelect ids = Some id ->
        ids = [id]
        /\ subscriptions (trace w2) = subscriptions (trace w1) ++ [id]
        /\ selectedStreamer (webRtcController w2) = Some id)
  /\ (autoSelect ids = None ->
        subscriptions (trace w2) = subscriptions (trace w1)
        /\ selectedStreamer (webRtcController w2)
           = selectedStreamer (webRtcController w1))
  /\ discoveries (trace w2)
     = discoveries (trace w) ++
       map (fun l => (l, autoSelect l)) (earlier ++ [ids]).
Proof.
  intros Hopen; cbv zeta.
  destruct (streamer_lists_run earlier w Hopen) as (Hopen1 & _ & Hdis1).
  destruct (onStreamerList_frame ids _ Hopen1) as (_ & Hsub & Hdis & Hsel).
  split; [apply autoSelect_iff|].
  rewrite Hsub, Hdis, Hsel, Hdis1, map_app, <- app_assoc. unfold subscribed.
  repeat split.
  - destruct ids as [|a [|b rest]]; try discriminate. cbn in H. congruence.
  - now rewrite H.
  - now rewrite H.
  - rewrite H. apply app_nil_r.
  - now rewrite H.
Qed.

(** C3 on three lists in a row: two identifiers, none, then one. *)
Lemma C3_auto_selection_follows_latest_list_witness :
  let w := exec (run [ws_opened; ws_Config]) (constructor autoConnectConfig 0) in
  let w1 := exec (run (map ws_StreamerList [["a"; "b"]; []])) w in
  let w2 := exec (step (ws_StreamerList ["MOCK_PIXEL_STREAMING"])) w1 in
  subscriptions (trace w2)
  = subscriptions (trace w1) ++ ["MOCK_PIXEL_STREAMING"]
  /\ discoveries (trace w2)
     = discoveries (trace w) ++
       [ (["a"; "b"], None); ([], None);
         (["MOCK_PIXEL_STREAMING"], Some "MOCK_PIXEL_STREAMING") ].
Proof.
  pose proof (C3_auto_selection_follows_latest_list
                (exec (run [ws_opened; ws_Config])
                   (constructor autoConnectConfig 0))
                [["a"; "b"]; []] ["MOCK_PIXEL_STREAMING"] eq_refl)
    as (_ & Hsel & _ & Hdis).
  split; [exact (proj1 (proj2 (Hsel _ eq_refl))) | exact Hdis].
Defined.

(** ** Statistics polling (C5) *)

Lemma tick_not_polling (snapshots : list AggregatedStats) (w : World) :
  not_polling snapshots w -> not_polling snapshots (exec tick w).
Proof.
  unfold not_polling. open_world w. intros [Hst <-].
  unfold statsEvents; crunch; try discriminate Hst;
    split; try reflexivity; read_trace; reflexivity.
Qed.

Lemma step_not_polling
    (snapshots : list AggregatedStats) (i : Input) (w : World) :
  negb (is_connected_report i) = true ->
  not_polling snapshots w -> not_polling snapshots (exec (step i) w).
Proof.
  intros Hi Hw.
  destruct i; try discriminate Hi;
    try (cbn [step]; apply advance_preserves;
         [apply tick_not_polling | exact Hw]).
  all: revert Hw; unfold not_polling; open_world w; intros [Hst <-].
  all: unfold statsEvents; crunch; try discriminate Hst;
    split; try reflexivity; read_trace; reflexivity.
Qed.

Lemma disconnect_not_polling (w : World) :
  not_polling (statsEvents (trace w)) (exec disconnect w).
Proof.
  unfold not_polling. open_world w. unfold statsEvents.
  crunch; split; try reflexivity; read_trace; reflexivity.
Qed.

(** One millisecond of a polling session: the countdown either reaches the
    tick, which emits one snapshot and rearms the timer, or goes down by one. *)
Lemma tick_polling (w : World) (r : nat) :
  sessionState (webRtcController w) = Connected ->
  statsTimer (webRtcController w) = Some r ->
  reconnectTimer (webRtcController w) = None ->
  let w' := exec tick w in
  sessionState (webRtcController w') = Connected
  /\ reconnectTimer (webRtcController w') = None
  /\ statsTimer (webRtcController w')
     = Some (if (r <=? 1)%nat then statsInterval else Nat.pred r)
  /\ List.length (statsEvents (trace w'))
     = (List.length (statsEvents (trace w))
        + if (r <=? 1)%nat then 1 else 0)%nat.
Proof.
  open_world w. intros -> -> ->. cbv zeta. unfold statsEvents.
  crunch; repeat split; read_trace; try reflexivity; lia.
Qed.

(** The same in terms of the time since the timer last fired. *)
Lemma tick_phase (since : nat) (w : World) :
  polling since w ->
  polling ((since + 1) mod 1000) (exec tick w)
  /\ List.length (statsEvents (trace (exec tick w)))
     = (List.length (statsEvents (trace w)) + (since + 1) / 1000)%nat.
Proof.
  unfold polling, statsInterval; cbv zeta. intros (Hst & Htimer & Hlt & Hrec).
  destruct (tick_polling w _ Hst Htimer Hrec) as (Hst' & Hrec' & Htimer' & Hlen).
  unfold statsInterval in Htimer'.
  rewrite Hst', Hrec', Htimer', Hlen.
  destruct (1000 - since <=? 1)%nat eqn:Hle; leb_facts.
  - assert (since = 999)%nat as -> by lia.
    repeat split; try reflexivity.
    apply Nat.mod_upper_bound; discriminate.
  - rewrite Nat.mod_small, Nat.div_small by lia.
    repeat split; try lia. f_equal; lia.
Qed.

Lemma mod_step (a b : nat) :
  (((a mod 1000) + b) mod 1000 = (a + b) mod 1000)%nat.
Proof. rewrite Nat.Div0.add_mod_idemp_l. reflexivity. Qed.

Lemma div_step (a b : nat) :
  (a / 1000 + ((a mod 1000) + b) / 1000 = (a + b) / 1000)%nat.
Proof.
  rewrite (Nat.div_mod_eq a 1000) at 3.
  rewrite <- Nat.add_assoc, Nat.mul_comm, Nat.div_add_l by lia.
  reflexivity.
Qed.

Lemma advance_phase (ms : nat) :
  forall (since : nat) (w : World),
    polling since w ->
    let w' := exec (advanceTimersByTime ms) w in
    polling ((since + ms) mod 1000) w'
    /\ List.length (statsEvents (trace w'))
       = (List.length (statsEvents (trace w)) + (since + ms) / 1000)%nat.
Proof.
  induction ms as [|ms IH]; intros since w Hw; cbv zeta.
  - cbn [advanceTimersByTime exec ret snd]. rewrite Nat.add_0_r.
    assert (since < 1000)%nat by (apply Hw).
    rewrite Nat.mod_small, Nat.div_small by assumption.
    split; [exact Hw | lia].
  - rewrite exec_advance_S.
    destruct (tick_phase since w Hw) as [Hw1 Hlen1].
    destruct (IH _ _ Hw1) as [Hw2 Hlen2].
    rewrite mod_step in Hw2.
    rewrite Hlen2, Hlen1, <- Nat.add_assoc, div_step.
    replace (since + S ms)%nat with (since + 1 + ms)%nat by lia.
    split; [exact Hw2 | reflexivity].
Qed.

(** An input that keeps the session and takes no time leaves the state, the
    timers and the snapshots as they are. *)
Lemma step_keeps_polling (i : Input) (w : World) :
  keeps_session i = true ->
  (forall ms, i <> elapse ms) ->
  sessionState (webRtcController w) = Connected ->
  let w' := exec (step i) w in
  sessionState (webRtcController w') = Connected
  /\ statsTimer (webRtcController w') = statsTimer (webRtcController w)
  /\ reconnectTimer (webRtcController w') = reconnectTimer (webRtcController w)
  /\ statsEvents (trace w') = statsEvents (trace w).
Proof.
  intros Hi Hne.
  destruct i; try discriminate Hi; try (now exfalso; eapply Hne).
  all: revert Hi; open_world w; intros Hi ->; revert Hi.
  all: cbv zeta; unfold statsEvents; crunch; intros Hi; try discriminate Hi.
  all: repeat split; read_trace; reflexivity.
Qed.

Lemma step_phase (i : Input) (since : nat) (w : World) :
  keeps_session i = true ->
  polling since w ->
  let w' := exec (step i) w in
  polling ((since + elapsedMs [i]) mod 1000) w'
  /\ List.length (statsEvents (trace w'))
     = (List.length (statsEvents (trace w))
        + (since + elapsedMs [i]) / 1000)%nat.
Proof.
  intros Hi Hw; cbv zeta.
  assert (Hzero : (forall ms, i <> elapse ms) ->
            ((since + elapsedMs [i]) mod 1000 = since
             /\ (since + elapsedMs [i]) / 1000 = 0)%nat).
  { intros Hne. assert (since < 1000)%nat by (apply Hw).
    assert (elapsedMs [i] = 0)%nat as ->
      by (destruct i; try reflexivity; now exfalso; eapply Hne).
    rewrite Nat.add_0_r, Nat.mod_small, Nat.div_small by assumption.
    split; reflexivity. }
  destruct i;
    try (destruct (Hzero ltac:(discriminate)) as [-> ->];
         destruct Hw as (Hst & Htimer & Hlt & Hrec);
         match goal with
         | |- context [step ?j] =>
             destruct (step_keeps_polling j w Hi ltac:(discriminate) Hst)
               as (Hst' & Htimer' & Hrec' & Hlen)
         end;
         unfold polling; cbv zeta;
         rewrite Hst', Htimer', Hrec', Hlen, Nat.add_0_r;
         repeat split; assumption).
  cbn [elapsedMs fold_right step]. rewrite Nat.add_0_r.
  apply advance_phase, Hw.
Qed.

Lemma elapsedMs_cons (i : Input) (rest : list Input) :
  elapsedMs (i :: rest) = (elapsedMs [i] + elapsedMs rest)%nat.
Proof.
  unfold elapsedMs; cbn [fold_right]. destruct i; lia.
Qed.

(** A [Connected] period: as long as the inputs keep the session, the
    snapshots emitted are the full intervals of the time that has passed. *)
Lemma run_phase (inputs : list Input) :
  forall (since : nat) (w : World),
    forallb keeps_session inputs = true ->
    polling since w ->
    let w' := exec (run inputs) w in
    polling ((since + elapsedMs inputs) mod 1000) w'
    /\ List.length (statsEvents (trace w'))
       = (List.length (statsEvents (trace w))
          + (since + elapsedMs inputs) / 1000)%nat.
Proof.
  induction inputs as [|i rest IH]; intros since w Hall Hw; cbv zeta.
  - cbn [run exec ret snd elapsedMs fold_right]. rewrite Nat.add_0_r.
    assert (since < 1000)%nat by (apply Hw).
    rewrite Nat.mod_small, Nat.div_small by assumption.
    split; [exact Hw | lia].
  - cbn [forallb] in Hall. apply andb_true_iff in Hall as [Hi Hrest].
    rewrite exec_run_cons, elapsedMs_cons.
    destruct (step_phase i since w Hi Hw) as [Hw1 Hlen1].
    destruct (IH _ _ Hrest Hw1) as [Hw2 Hlen2].
    rewrite mod_step in Hw2.
    rewrite Hlen2, Hlen1, <- Nat.add_assoc, div_step, !Nat.add_assoc.
    split; [exact Hw2 | reflexivity].
Qed.

(** Entering [Connected] arms the timer. *)
Lemma onConnectivityConnected_spec (w : World) :
  peerSession (webRtcController w) = true ->
  is_Connected (sessionState (webRtcController w)) = false ->
  reconnectTimer (webRtcController w) = None ->
  let w' := exec (step pc_connected) w in
  polling 0 w' /\ statsEvents (trace w') = statsEvents (trace w).
Proof.
  unfold polling. open_world w. intros -> Hst ->. cbv zeta.
  unfold statsEvents.
  crunch; try discriminate Hst; read_trace; repeat split; lia.
Qed.

(** C5. A Connected period starts when the connectivity callback makes a
    session [Connected] that was not (with no reconnect pending), and lasts
    as long as what happens keeps the session: calls, messages, reports and
    the passing of time, in any order. At every point of such a period the
    snapshot events emitted since its start are as many as the full 1000 ms
    intervals of the time elapsed since then. While the session is not
    [Connected] nothing that happens, the passing of time included, emits a
    snapshot, unless connectivity is reported anew; this holds in particular
    after [disconnect()]. *)
Theorem C5_one_snapshot_per_second_while_connected
    (w v : World) (during after : list Input) :
  peerSession (webRtcController w) = true ->
  is_Connected (sessionState (webRtcController w)) = false ->
  reconnectTimer (webRtcController w) = None ->
  forallb keeps_session during = true ->
  is_Connected (sessionState (webRtcController v)) = false ->
  forallb (fun i => negb (is_connected_report i)) after = true ->
  let c := exec (run during) (exec (step pc_connected) w) in
  let d := exec disconnect c in
  sessionState (webRtcController c) = Connected
  /\ List.length (statsEvents (trace c))
     = (List.length (statsEvents (trace w)) + elapsedMs during / 1000)%nat
  /\ statsEvents (trace (exec (run after) v)) = statsEvents (trace v)
  /\ statsEvents (trace (exec (run after) d)) = statsEvents (trace c).
Proof.
  intros Hpeer Hst Hrec Hduring Hv Hafter; cbv zeta.
  destruct (onConnectivityConnected_spec w Hpeer Hst Hrec) as [Hc Hlen].
  destruct (run_phase during 0 _ Hduring Hc) as [Hc' Hlen'].
  repeat split.
  - apply Hc'.
  - rewrite Hlen', Hlen. reflexivity.
  - apply (run_preserves (not_polling (statsEvents (trace v)))
             (fun i => negb (is_connected_report i)));
      [intros i u; apply step_not_polling | exact Hafter | now split].
  - apply (run_preserves (not_polling _)
             (fun i => negb (is_connected_report i)));
      [intros i u; apply step_not_polling | exact Hafter
      | apply disconnect_not_polling].
Qed.

(** C5 on a session that stays connected for 2997 ms while connectivity is
    reported twice more, a stream is played, a setting changed and a message
    received, and is then disconnected. *)
Lemma C5_one_snapshot_per_second_while_connected_witness :
  let w := exec (run [api_connect; ws_opened; ws_Config])
             (constructor defaultConfig 0) in
  let during :=
    [elapse 999; pc_connected; api_play; elapse 999; pc_connected;
     api_setFlagEnabled Flags.HoveringMouseMode true; pc_dataChannelOpen;
     dc_InitialSettings (settingsWith true); elapse 999] in
  let c := exec (run during) (exec (step pc_connected) w) in
  let d := exec disconnect c in
  sessionState (webRtcController c) = Connected
  /\ List.length (statsEvents (trace c)) = 2%nat
  /\ statsEvents (trace (exec (run [elapse 1500; api_connect]) d))
     = statsEvents (trace c).
Proof.
  pose proof (C5_one_snapshot_per_second_while_connected
                (exec (run [api_connect; ws_opened; ws_Config])
                   (constructor defaultConfig 0))
                (constructor defaultConfig 0)
                [elapse 999; pc_connected; api_play; elapse 999; pc_connected;
                 api_setFlagEnabled Flags.HoveringMouseMode true;
                 pc_dataChannelOpen;
                 dc_InitialSettings (settingsWith true); elapse 999]
                [elapse 1500; api_connect]
                eq_refl eq_refl eq_refl eq_refl eq_refl eq_refl)
    as (H1 & H2 & _ & H4).
  split; [exact H1 | split; [exact H2 | exact H4]].
Defined.

(** ** Reconnecting (C2) *)

Lemma channelUp_candidates (l : list string) (up : bool) :
  fold_left
    (fun up e =>
       match e with
       | OpenChannel => true
       | CloseChannel => false
       | _ => up
       end) (map AddIceCandidate l) up = up.
Proof.
  induction l as [|c l IH]; [reflexivity | exact IH].
Qed.

Ltac read_channel :=
  rewrite ?fold_left_app; cbn [fold_left];
  rewrite ?channelUp_candidates; cbn [fold_left].

Lemma tick_channel_as_traced (w : World) :
  channel_as_traced w -> channel_as_traced (exec tick w).
Proof.
  unfold channel_as_traced, channelUp, connectionUp. open_world w. intros H.
  crunch; read_channel; first [exact H | reflexivity].
Qed.

Lemma step_channel_as_traced (i : Input) (w : World) :
  channel_as_traced w -> channel_as_traced (exec (step i) w).
Proof.
  intros Hw.
  destruct i;
    try (cbn [step]; apply (advance_preserves channel_as_traced);
         [apply tick_channel_as_traced | exact Hw]).
  all: revert Hw; unfold channel_as_traced, channelUp, connectionUp;
    open_world w; intros H.
  all: crunch; read_channel; first [exact H | reflexivity].
Qed.

Lemma constructor_channel_as_traced (cfg : Config) (t : Z) :
  channel_as_traced (constructor cfg t).
Proof.
  unfold channel_as_traced, channelUp, connectionUp, constructor.
  destruct cfg as [fl lbl num codec]. run_ops.
  destruct (fl Flags.AutoConnect); reflexivity.
Qed.

Lemma everConnected_candidates (l : list string) :
  existsb
    (fun e =>
       match e with Dispatch WebRtcConnectedEvent => true | _ => false end)
    (map AddIceCandidate l) = false.
Proof.
  induction l as [|c l IH]; [reflexivity | exact IH].
Qed.

Ltac read_connected :=
  rewrite ?existsb_app; cbn [existsb];
  rewrite ?everConnected_candidates, ?orb_false_r, ?orb_true_r.

Lemma tick_flag_as_traced (w : World) :
  flag_as_traced w -> flag_as_traced (exec tick w).
Proof.
  unfold flag_as_traced, everConnected. open_world w. intros H.
  crunch; read_connected; first [exact H | reflexivity].
Qed.

Lemma step_flag_as_traced (i : Input) (w : World) :
  flag_as_traced w -> flag_as_traced (exec (step i) w).
Proof.
  intros Hw.
  destruct i;
    try (cbn [step]; apply (advance_preserves flag_as_traced);
         [apply tick_flag_as_traced | exact Hw]).
  all: revert Hw; unfold flag_as_traced, everConnected; open_world w; intros H.
  all: crunch; read_connected; first [exact H | reflexivity].
Qed.

Lemma tick_connected_has_flag (w : World) :
  connected_has_flag w -> connected_has_flag (exec tick w).
Proof.
  unfold connected_has_flag. open_world w. intros H.
  destruct was; cbn [orb] in H; crunch;
    first [reflexivity | discriminate H].
Qed.

Lemma step_connected_has_flag (i : Input) (w : World) :
  connected_has_flag w -> connected_has_flag (exec (step i) w).
Proof.
  intros Hw.
  destruct i;
    try (cbn [step]; apply (advance_preserves connected_has_flag);
         [apply tick_connected_has_flag | exact Hw]).
  all: revert Hw; unfold connected_has_flag; open_world w; intros H.
  all: destruct was; cbn [orb] in H; crunch;
    first [reflexivity | discriminate H].
Qed.

Lemma reachable_as_traced
    (cfg : Config) (t : Z) (inputs : list Input) :
  let w := exec (run inputs) (constructor cfg t) in
  channel_as_traced w /\ flag_as_traced w /\ connected_has_flag w.
Proof.
  cbv zeta.
  apply (run_preserves
           (fun w => channel_as_traced w /\ flag_as_traced w
                     /\ connected_has_flag w) (fun _ => true)).
  - intros i w _ (H1 & H2 & H3).
    split; [|split];
      [ now apply step_channel_as_traced | now apply step_flag_as_traced
      | now apply step_connected_has_flag ].
  - apply forallb_forall; reflexivity.
  - split; [apply constructor_channel_as_traced|].
    unfold flag_as_traced, everConnected, connected_has_flag, constructor.
    destruct cfg as [fl lbl num codec]. run_ops.
    destruct (fl Flags.AutoConnect); split; reflexivity.
Qed.

(** A trace without an open has no connection up. *)
Lemma never_opened (t : list Effect) :
  opens t = 0%nat -> channelUp t = false.
Proof.
  unfold opens, channelUp.
  induction t as [|e t IH]; [reflexivity|].
  cbn [filter fold_left].
  destruct e; cbn [List.length]; try discriminate; exact IH.
Qed.

(** One millisecond of a pending reconnect. *)
Lemma tick_reconnect (w : World) (r : nat) :
  reconnectTimer (webRtcController w) = Some r ->
  let w' := exec tick w in
  reconnectTimer (webRtcController w')
  = (if (r <=? 1)%nat then None else Some (Nat.pred r))
  /\ opens (trace w')
     = (opens (trace w) + if (r <=? 1)%nat then 1 else 0)%nat
  /\ autoConnectEvents (trace w')
     = (autoConnectEvents (trace w) + if (r <=? 1)%nat then 1 else 0)%nat.
Proof.
  open_world w. intros ->. cbv zeta. unfold opens, autoConnectEvents.
  destruct stt as [k|].
  - destruct (k <=? 1)%nat eqn:Hk.
    + run_ops. rewrite Hk. crunch; repeat split; read_trace; lia.
    + run_ops. rewrite Hk. crunch; repeat split; read_trace; lia.
  - crunch; repeat split; read_trace; lia.
Qed.

Lemma reconnect_pending (ms : nat) :
  forall (w : World) (r : nat),
    reconnectTimer (webRtcController w) = Some r ->
    (ms < r)%nat ->
    let w' := exec (advanceTimersByTime ms) w in
    reconnectTimer (webRtcController w') = Some (r - ms)%nat
    /\ opens (trace w') = opens (trace w)
    /\ autoConnectEvents (trace w') = autoConnectEvents (trace w).
Proof.
  induction ms as [|ms IH]; intros w r Hr Hms; cbv zeta.
  - cbn [advanceTimersByTime exec ret snd]. rewrite Nat.sub_0_r. now repeat split.
  - rewrite exec_advance_S.
    destruct (tick_reconnect w r Hr) as (Hr' & Hopens & Hauto).
    destruct (r <=? 1)%nat eqn:Hle; leb_facts; [lia|].
    destruct (IH _ _ Hr' ltac:(lia)) as (H1 & H2 & H3).
    rewrite H1, H2, H3, Hopens, Hauto.
    repeat split; try lia. f_equal; lia.
Qed.

Lemma reconnect_fires (r : nat) (w : World) :
  reconnectTimer (webRtcController w) = Some (S r) ->
  let w' := exec (advanceTimersByTime (S r)) w in
  opens (trace w') = S (opens (trace w))
  /\ autoConnectEvents (trace w') = S (autoConnectEvents (trace w)).
Proof.
  intros Htimer; cbv zeta.
  replace (S r) with (r + 1)%nat at 1 2 by lia.
  rewrite !exec_advance_add.
  destruct (reconnect_pending r w (S r) Htimer ltac:(lia)) as (Hr & Hopens & Hauto).
  replace (S r - r)%nat with 1%nat in Hr by lia.
  change (exec (advanceTimersByTime 1) ?x) with (exec tick x).
  destruct (tick_reconnect _ _ Hr) as (_ & Hopens' & Hauto').
  cbn [Nat.leb] in Hopens', Hauto'. lia.
Qed.

Lemma reconnect_immediate (w : World) :
  deferred (webRtcController w) = false ->
  let w' := exec reconnect w in
  opens (trace w') = S (opens (trace w))
  /\ closes (trace w') = closes (trace w).
Proof.
  unfold deferred, connectionUp. open_world w. intros H. cbv zeta.
  unfold opens, closes.
  destruct rv, was; try discriminate H; run_ops; read_trace; split; lia.
Qed.

Lemma reconnect_deferred (w : World) :
  deferred (webRtcController w) = true ->
  let w' := exec reconnect w in
  reconnectTimer (webRtcController w') = Some reconnectDelay
  /\ (closes (trace w) < closes (trace w'))%nat
  /\ opens (trace w') = opens (trace w)
  /\ autoConnectEvents (trace w') = autoConnectEvents (trace w).
Proof.
  unfold deferred, connectionUp. open_world w. intros H. cbv zeta.
  unfold opens, closes, autoConnectEvents.
  destruct rv, was; try discriminate H; crunch; repeat split; read_trace; lia.
Qed.

(** C2, as amended. Take any execution that starts with the construction of
    the object, and call [reconnect()] at its end. If no connected event was
    ever emitted and the connection to the signalling server is not up (the
    last thing done to the rendezvous channel was not to open it: no channel
    was opened yet, or the last one has been closed), the call opens the
    channel at once and closes nothing. If a connected event was emitted, or
    the connection is up, the call first closes the existing session and
    opens no channel for the next 3000 ms; when 3000 ms have passed one new
    channel has been opened and one auto-connect event emitted. A session
    that is [Connected] has had its connected event, and an object that never
    opened a channel has no connection up. *)
Theorem C2_reconnect_immediate_or_deferred
    (cfg : Config) (t : Z) (inputs : list Input) (ms : nat) :
  (ms < 3000)%nat ->
  let w := exec (run inputs) (constructor cfg t) in
  let w' := exec reconnect w in
  (if channelUp (trace w) || everConnected (trace w)
   then (closes (trace w) < closes (trace w'))%nat
        /\ opens (trace w') = opens (trace w)
        /\ opens (trace (exec (advanceTimersByTime ms) w')) = opens (trace w)
        /\ opens (trace (exec (advanceTimersByTime 3000) w'))
           = S (opens (trace w))
        /\ autoConnectEvents (trace (exec (advanceTimersByTime 3000) w'))
           = S (autoConnectEvents (trace w))
   else opens (trace w') = S (opens (trace w))
        /\ closes (trace w') = closes (trace w))
  /\ (sessionState (webRtcController w) = Connected ->
      everConnected (trace w) = true)
  /\ (opens (trace w) = 0%nat -> channelUp (trace w) = false).
Proof.
  intros Hms; cbv zeta.
  destruct (reachable_as_traced cfg t inputs) as (Hchannel & Hflag & Hconnected).
  set (w := exec (run inputs) (constructor cfg t)) in *.
  unfold channel_as_traced in Hchannel. unfold flag_as_traced in Hflag.
  split; [|split].
  - rewrite Hchannel, Hflag.
    change (connectionUp (webRtcController w)
            || wasPreviouslyConnected (webRtcController w))
      with (deferred (webRtcController w)).
    destruct (deferred (webRtcController w)) eqn:Hdeferred.
    + destruct (reconnect_deferred w Hdeferred)
        as (Htimer & Hcloses & Hopens & Hauto).
      unfold reconnectDelay in Htimer.
      destruct (reconnect_pending ms _ _ Htimer Hms) as (_ & Hopens1 & _).
      destruct (reconnect_fires 2999 _ Htimer) as (Hopens2 & Hauto2).
      repeat split; try assumption; lia.
    + exact (reconnect_immediate w Hdeferred).
  - intros Hst. rewrite Hflag.
    unfold connected_has_flag in Hconnected.
    rewrite Hst in Hconnected. cbn [is_Connected negb] in Hconnected.
    now rewrite orb_false_r in Hconnected.
  - apply never_opened.
Qed.

(** C2 on a session that was brought up and then disconnected, where the
    reconnect is deferred, and on an object that connected, never got as far
    as [Connected] and was disconnected, where it is immediate. *)
Lemma C2_reconnect_immediate_or_deferred_witness :
  let used :=
    exec (run (bringUp ++ [api_disconnect])) (constructor defaultConfig 0) in
  let used' := exec reconnect used in
  let idle :=
    exec (run [api_connect; ws_opened; api_disconnect])
      (constructor defaultConfig 0) in
  let idle' := exec reconnect idle in
  ((closes (trace used) < closes (trace used'))%nat
   /\ opens (trace used') = opens (trace used)
   /\ opens (trace (exec (advanceTimersByTime 2999) used'))
      = opens (trace used)
   /\ opens (trace (exec (advanceTimersByTime 3000) used'))
      = S (opens (trace used))
   /\ autoConnectEvents (trace (exec (advanceTimersByTime 3000) used'))
      = S (autoConnectEvents (trace used)))
  /\ (opens (trace idle') = S (opens (trace idle))
      /\ closes (trace idle') = closes (trace idle)).
Proof.
  assert (Hused : (fun t => channelUp t || everConnected t)
                    (trace (exec (run (bringUp ++ [api_disconnect]))
                              (constructor defaultConfig 0)))
                  = true) by (vm_compute; reflexivity).
  assert (Hidle : (fun t => channelUp t || everConnected t)
                    (trace (exec (run [api_connect; ws_opened; api_disconnect])
                              (constructor defaultConfig 0)))
                  = false) by (vm_compute; reflexivity).
  pose proof (C2_reconnect_immediate_or_deferred
                defaultConfig 0 (bringUp ++ [api_disconnect]) 2999 ltac:(lia))
    as [H1 _].
  pose proof (C2_reconnect_immediate_or_deferred
                defaultConfig 0 [api_connect; ws_opened; api_disconnect] 0
                ltac:(lia))
    as [H2 _].
  cbv beta in Hused, Hidle. rewrite Hused in H1. rewrite Hidle in H2.
  cbv zeta. split; [exact H1 | exact H2].
Defined.

(** C2, as stated, fails for a controller that has only begun to connect: the
    object built with [AutoConnect] has opened the channel, its session is
    [SignalingConnecting] and no connected event was ever emitted, and
    [reconnect()] closes the channel and opens none at once. *)
Lemma C2_reconnect_closes_unconnected_session :
  let w := constructor autoConnectConfig 0 in
  let w' := exec reconnect w in
  everConnected (trace w) = false
  /\ sessionState (webRtcController w) = SignalingConnecting
  /\ closes (trace w') = S (closes (trace w))
  /\ opens (trace w') = opens (trace w).
Proof. cbv zeta. vm_compute. repeat split. Qed.

(** * Further properties of PixelStreaming.ts *)

(** ** Numeric settings and the messages they send *)

Lemma js_mul_exact (kilobits : Z) :
  exact_bitrate kilobits -> js_mul kilobits 1000 = kilobits * 1000.
Proof.
  unfold exact_bitrate, js_mul, round_to_double. intros H.
  apply Z.ltb_lt in H. cbv zeta. now rewrite H.
Qed.

(** X1. The listener of a numeric setting, called with the new value, leaves
    the configuration alone and sends exactly one settings message, which
    describes the configuration with the new value in the setting's place:
    encoder settings for the two QP settings; for the others WebRTC settings,
    with the frame rate as it is and the two bitrates times 1000, as long as
    a double holds these products exactly. *)
Theorem X1_settings_message_mirrors_config
    (w : World) (id : NumericParameters.t) (newValue : Z) :
  let numeric := override (numericParameters (config w)) id newValue in
  exact_bitrate (numeric NumericParameters.WebRTCMinBitrate) ->
  exact_bitrate (numeric NumericParameters.WebRTCMaxBitrate) ->
  let w' := exec (configureSettings_numeric id newValue) w in
  config w' = config w
  /\ encoderMessages (trace w')
     = encoderMessages (trace w) ++
       (if is_QP id then [encoderSettingsOf numeric] else [])
  /\ webRtcMessages (trace w')
     = webRtcMessages (trace w) ++
       (if is_QP id then [] else [webRtcSettingsOf numeric]).
Proof.
  open_world w. cbv zeta.
  unfold encoderMessages, webRtcMessages, encoderSettingsOf, webRtcSettingsOf,
    override.
  destruct id; cbn [NumericParameters.eqb]; intros Hmin Hmax;
    run_ops; read_trace; rewrite ?(js_mul_exact _ Hmin), ?(js_mul_exact _ Hmax);
    repeat split.
Qed.

(** X1 on the listener of [WebRTCMaxBitrate], called with 5000 on a fresh
    object: the message carries 0 and 5000000. *)
Lemma X1_settings_message_mirrors_config_witness :
  let w := constructor defaultConfig 0 in
  let w' :=
    exec (configureSettings_numeric NumericParameters.WebRTCMaxBitrate 5000) w in
  config w' = config w
  /\ encoderMessages (trace w') = encoderMessages (trace w) ++ []
  /\ webRtcMessages (trace w')
     = webRtcMessages (trace w) ++
       [ {| FPS := 0; MinBitrate := 0; MaxBitrate := 5000000 |} ].
Proof.
  exact (X1_settings_message_mirrors_config
           (constructor defaultConfig 0)
           NumericParameters.WebRTCMaxBitrate 5000 eq_refl eq_refl).
Defined.

(** X2. When the initial settings carry encoder settings, [MinQP] and [MaxQP]
    are stored each in its own setting, and two encoder messages are sent:
    the first with the new [MinQP] beside the [MaxQP] configured before, the
    second with both values of the message. *)
Theorem X2_initial_encoder_settings
    (w : World) (p : option PixelStreamingSettings)
    (e : EncoderSettings) (r : option WebRTCSettings) :
  let settings :=
    {| InitialSettings.PixelStreamingSettings := p;
       InitialSettings.EncoderSettings := Some e;
       InitialSettings.WebRTCSettings := r |} in
  let w' := exec (_onInitialSettings settings) w in
  numericParameters (config w') NumericParameters.MinQP = MinQP e
  /\ numericParameters (config w') NumericParameters.MaxQP = MaxQP e
  /\ encoderMessages (trace w')
     = encoderMessages (trace w) ++
       [ {| MinQP := MinQP e;
            MaxQP := numericParameters (config w) NumericParameters.MaxQP |};
         e ].
Proof.
  open_world w. cbv zeta. unfold encoderMessages.
  destruct e as [minQP maxQP], p as [perm|], r as [rtc|];
    run_ops; read_trace; repeat split; rewrite <- ?app_assoc; reflexivity.
Qed.

(** X3. [_onInitialSettings] dispatches the message it was given as one
    [InitialSettingsEvent], before anything else, and changes nothing besides
    the numeric settings and the trace: flags, labels, codec, the controller
    and the fields of the object stay as they were. A message with neither
    encoder nor WebRTC settings only dispatches the event. *)
Theorem X3_initial_settings_frame (w : World) (settings : InitialSettings.t) :
  let w' := exec (_onInitialSettings settings) w in
  (exists rest,
     trace w' = trace w ++ Dispatch (InitialSettingsEvent settings) :: rest
     /\ settingsEvents rest = [])
  /\ w' = with_trace (trace w')
            (with_config
               (with_numericParameters (numericParameters (config w'))
                  (config w)) w)
  /\ (InitialSettings.EncoderSettings settings = None ->
      InitialSettings.WebRTCSettings settings = None ->
      w' = with_trace (trace w ++ [Dispatch (InitialSettingsEvent settings)]) w).
Proof.
  open_world w. cbv zeta.
  destruct settings as [[perm|] [enc|] [rtc|]]; run_ops;
    (split; [eexists; split; [rewrite <- ?app_assoc; reflexivity | reflexivity]
            | split; [reflexivity | intros; try discriminate; reflexivity]]).
Qed.

(** ** Session duration *)

Lemma onVideoStats_started
    (w : World) (start : Z) (videoStats : AggregatedStats) :
  _videoStartTime w = Some start ->
  start <> 0 ->
  exec (_onVideoStats videoStats) w
  = with_trace
      (trace w ++
         [Dispatch (StatsReceivedEvent (snapshotAt start w (now w, videoStats)))])
      w.
Proof.
  intros Hstart Hnz. rewrite onVideoStats_spec, Hstart.
  apply Z.eqb_neq in Hnz. cbn [unset_time]. rewrite Hnz.
  destruct w as [cfg ctl show vst ic clk tr].
  cbn [_videoStartTime] in Hstart; subst vst. reflexivity.
Qed.

Lemma statsCallbacks_from_start (calls : list (Z * AggregatedStats)) :
  forall (w : World) (start : Z),
    _videoStartTime w = Some start ->
    start <> 0 ->
    let w' := exec (statsCallbacks calls) w in
    _videoStartTime w' = Some start
    /\ statsEvents (trace w')
       = statsEvents (trace w) ++ map (snapshotAt start w) calls.
Proof.
  induction calls as [|[t videoStats] calls IH]; intros w start Hstart Hnz;
    cbv zeta.
  - cbn [statsCallbacks exec ret snd map]. rewrite app_nil_r. now split.
  - cbn [statsCallbacks map].
    change (exec (modify (with_now t) ;; _onVideoStats videoStats ;;
                  statsCallbacks calls) w)
      with (exec (statsCallbacks calls)
              (exec (_onVideoStats videoStats) (with_now t w))).
    rewrite (onVideoStats_started (with_now t w) start)
      by (destruct w; assumption).
    destruct w as [cfg ctl show vst ic clk tr].
    match goal with
    | |- context [exec (statsCallbacks calls) ?v] =>
        destruct (IH v start Hstart Hnz) as (H1 & H2)
    end.
    rewrite H1, H2. split; [reflexivity|].
    unfold with_trace, with_now; cbn [trace].
    unfold statsEvents at 1.
    rewrite flat_map_app; cbn [flat_map app]. rewrite <- app_assoc.
    reflexivity.
Qed.

(** X5. Once a start time other than 0 is recorded, statistics callbacks
    never change it: each snapshot, at whatever clock time its callback
    runs, reports the time elapsed since that start. *)
Theorem X5_durations_measured_from_start
    (w : World) (start : Z) (calls : list (Z * AggregatedStats)) :
  _videoStartTime w = Some start ->
  start <> 0 ->
  let w' := exec (statsCallbacks calls) w in
  _videoStartTime w' = Some start
  /\ statsEvents (trace w')
     = statsEvents (trace w) ++ map (snapshotAt start w) calls.
Proof.
  intros Hstart Hnz; cbv zeta.
  exact (statsCallbacks_from_start calls w start Hstart Hnz).
Qed.

(** X5 on a session whose start time is 1000, with callbacks at 2000 and
    3500. *)
Lemma X5_durations_measured_from_start_witness :
  let w := with__videoStartTime (Some 1000) (constructor defaultConfig 1000) in
  let calls := [ (2000, {| bytesReceived := 1; sessionStats := None |});
                 (3500, {| bytesReceived := 2; sessionStats := None |}) ] in
  map (fun s => option_map runTime (sessionStats s))
    (statsEvents (trace (exec (statsCallbacks calls) w)))
  = [Some (Some 1000); Some (Some 2500)].
Proof.
  pose proof (X5_durations_measured_from_start
                (with__videoStartTime (Some 1000)
                   (constructor defaultConfig 1000))
                1000
                [ (2000, {| bytesReceived := 1; sessionStats := None |});
                  (3500, {| bytesReceived := 2; sessionStats := None |}) ]
                eq_refl ltac:(discriminate)) as [_ H].
  cbv zeta. rewrite H. reflexivity.
Defined.

(** X6. [_onVideoInitialized] restarts the measurement: whatever start time
    was recorded before, the snapshots that follow report the time elapsed
    since the video was initialised (at a clock time other than 0). *)
Theorem X6_video_initialized_restarts_duration
    (w : World) (calls : list (Z * AggregatedStats)) :
  now w <> 0 ->
  let w0 := exec _onVideoInitialized w in
  let w' := exec (statsCallbacks calls) w0 in
  trace w0 = trace w ++ [Dispatch VideoInitializedEvent]
  /\ _videoStartTime w' = Some (now w)
  /\ statsEvents (trace w')
     = statsEvents (trace w) ++ map (snapshotAt (now w) w) calls.
Proof.
  intros Hnz; cbv zeta.
  assert (Hstart : _videoStartTime (exec _onVideoInitialized w) = Some (now w))
    by (destruct w; reflexivity).
  destruct (statsCallbacks_from_start calls _ _ Hstart Hnz) as (H1 & H4).
  rewrite H1, H4. destruct w; cbn.
  unfold statsEvents. rewrite flat_map_app; cbn [flat_map]. rewrite app_nil_r.
  repeat split.
Qed.

(** X6 on the object as constructed at clock time 500. *)
Lemma X6_video_initialized_restarts_duration_witness :
  let w := with__videoStartTime (Some 7) (constructor defaultConfig 500) in
  let calls := [ (1500, {| bytesReceived := 1; sessionStats := None |}) ] in
  map (fun s => option_map runTime (sessionStats s))
    (statsEvents
       (trace (exec (statsCallbacks calls) (exec _onVideoInitialized w))))
  = [Some (Some 1000)].
Proof.
  pose proof (X6_video_initialized_restarts_duration
                (with__videoStartTime (Some 7) (constructor defaultConfig 500))
                [ (1500, {| bytesReceived := 1; sessionStats := None |}) ]
                ltac:(discriminate)) as (_ & _ & H).
  cbv zeta. rewrite H. reflexivity.
Defined.

(** ** Input control, disconnecting, flags *)

Lemma inputControlReports_last (earlier : list bool) :
  forall (w : World) (owned : bool),
    exec (inputControlReports (earlier ++ [owned])) w
    = with__inputController (Some owned) w.
Proof.
  induction earlier as [|b earlier IH]; intros w owned.
  - destruct w; reflexivity.
  - cbn [app inputControlReports].
    change (exec (_onInputControlOwnership b ;; ?k) w)
      with (exec k (exec (_onInputControlOwnership b) w)).
    rewrite IH. destruct w; reflexivity.
Qed.

(** X7. Input-control-ownership reports dispatch no event and change nothing
    but the recorded ownership, where the last report wins; the next
    statistics snapshot says that ownership. Before any report the snapshot
    carries no value. *)
Theorem X7_input_control_reaches_snapshot
    (w : World) (earlier : list bool) (owned : bool)
    (videoStats : AggregatedStats) :
  let w1 := exec (inputControlReports (earlier ++ [owned])) w in
  w1 = with__inputController (Some owned) w
  /\ reportedInputControl (trace (exec (_onVideoStats videoStats) w1))
     = reportedInputControl (trace w) ++ [Some owned]
  /\ reportedInputControl
       (trace (exec (_onVideoStats videoStats) (constructor (config w) (now w))))
     = [None].
Proof.
  cbv zeta. rewrite inputControlReports_last, !onVideoStats_spec.
  destruct w as [[fl lbl num codec] ctl show vst ic clk tr].
  unfold reportedInputControl, statsEvents, constructor.
  repeat split.
  - cbn [with__inputController with_trace with__videoStartTime trace
         _inputController _videoStartTime now webRtcController].
    rewrite !flat_map_app. cbn [flat_map app sessionStats controlsStreamInput].
    reflexivity.
  - run_ops. destruct (fl Flags.AutoConnect); reflexivity.
Qed.

(** X8. After [_onWebRtcAutoConnect] the next disconnected event asks for
    the action or error to be shown, whatever the flag was before; the
    message it carries follows the override as usual. *)
Theorem X8_auto_connect_restores_disconnect_display
    (w : World) (eventString : string) :
  let w1 := exec _onWebRtcAutoConnect w in
  _showActionOrErrorOnDisconnect w1 = true
  /\ trace (exec (_onDisconnect eventString) w1)
     = trace w ++
       [ Dispatch WebRtcAutoConnectEvent;
         Dispatch
           (WebRtcDisconnectedEvent
              (disconnectText (disconnectMessageOverride (webRtcController w))
                 eventString)
              true) ].
Proof.
  cbv zeta. rewrite onDisconnect_spec.
  destruct w as [cfg ctl show vst ic clk tr]; cbn.
  rewrite <- app_assoc. split; reflexivity.
Qed.

(** X9. The listener of the [HoveringMouseMode] flag relabels the flag after
    the value it is called with ("Hovering" for true, "Locked" for false),
    leaves the labels of the other flags and the values of all flags alone,
    and asks the controller once to register the mouse again. *)
Theorem X9_hovering_mouse_label_follows_flag (w : World) (value : bool) :
  let w' := exec (configureSettings_flag Flags.HoveringMouseMode value) w in
  flagLabels (config w') Flags.HoveringMouseMode = controlSchemeLabel value
  /\ (forall k, Flags.eqb k Flags.HoveringMouseMode = false ->
        flagLabels (config w') k = flagLabels (config w) k)
  /\ (forall k, flags (config w') k = flags (config w) k)
  /\ registerMouseCalls (trace w') = S (registerMouseCalls (trace w)).
Proof.
  open_world w. cbv zeta. unfold controlSchemeLabel, registerMouseCalls.
  destruct value; run_ops; read_trace; repeat split; try lia;
    intros k Hk; destruct k; try discriminate Hk; reflexivity.
Qed.

(** X10. A quality-control ownership request is sent from one place only:
    writing a flag other than [IsQualityController], writing a numeric
    setting, or processing initial settings never sends one, and none of
    them changes the [IsQualityController] flag. *)
Theorem X10_ownership_requested_only_by_its_flag
    (w : World) (flag : Flags.t) (value : bool)
    (id : NumericParameters.t) (n : Z) (settings : InitialSettings.t) :
  Flags.eqb flag Flags.IsQualityController = false ->
  let quiet (w' : World) :=
    ownershipRequests (trace w') = ownershipRequests (trace w)
    /\ flags (config w') Flags.IsQualityController
       = flags (config w) Flags.IsQualityController in
  quiet (exec (setFlagEnabled flag value) w)
  /\ quiet (exec (setNumericSetting id n) w)
  /\ quiet (exec (_onInitialSettings settings) w).
Proof.
  intros Hflag. open_world w. cbv zeta. unfold ownershipRequests.
  split; [|split].
  - destruct flag; try discriminate Hflag; crunch; read_trace; split;
      reflexivity.
  - destruct id; run_ops; read_trace; split; reflexivity.
  - destruct settings as [[p|] [e|] [r|]]; run_ops; read_trace; split;
      reflexivity.
Qed.

(** X10 for the [AFKDetection] flag. *)
Lemma X10_ownership_requested_only_by_its_flag_witness :
  let w := constructor defaultConfig 0 in
  ownershipRequests (trace (exec (setFlagEnabled Flags.AFKDetection true) w))
  = ownershipRequests (trace w).
Proof.
  exact (proj1 (proj1 (X10_ownership_requested_only_by_its_flag
                         (constructor defaultConfig 0) Flags.AFKDetection true
                         NumericParameters.MinQP 0 (settingsWith true)
                         eq_refl))).
Defined.

(** ** Construction *)

(** X11. The constructor keeps the configuration it was given, starts with
    the disconnect display on and neither start time nor input control
    recorded, hands the configured codec to the controller and resizes the
    player; it then connects, after an auto-connect event, exactly when the
    [AutoConnect] flag is set, and otherwise does nothing more. *)
Theorem X11_constructor (cfg : Config) (t : Z) :
  let w := constructor cfg t in
  config w = cfg
  /\ _showActionOrErrorOnDisconnect w = true
  /\ _videoStartTime w = None
  /\ _inputController w = None
  /\ trace w
     = [Call (setPreferredCodec (preferredCodec cfg)); Call resizePlayerStyle]
       ++ (if flags cfg Flags.AutoConnect
           then [Dispatch WebRtcAutoConnectEvent; OpenChannel]
           else []).
Proof.
  destruct cfg as [fl lbl num codec]. cbv zeta. unfold constructor.
  run_ops. destruct (fl Flags.AutoConnect); repeat split.
Qed.

(** ** The element that holds the video *)

Lemma accesses_of_existing
    (n : nat) (element : VideoElementParent.HTMLElement) (created : nat) :
  VideoElementParent.accesses n
    (VideoElementParent.construct (Some element) created)
  = (repeat element n, VideoElementParent.construct (Some element) created).
Proof.
  induction n as [|n IH]; [reflexivity|].
  cbn [VideoElementParent.accesses repeat].
  change (VideoElementParent.videoElementParent
            (VideoElementParent.construct (Some element) created))
    with (element, VideoElementParent.construct (Some element) created).
  cbv iota beta. now rewrite IH.
Qed.

(** X12. The element given to the constructor is the one every access
    returns, and no element is created. Without one, the first access creates
    a single [div] with id [videoElementParent], and every access, the first
    included, returns that same element. *)
Theorem X12_video_element_parent_created_once
    (overrides : option VideoElementParent.HTMLElement) (created n : nat) :
  let element :=
    match overrides with
    | Some given => given
    | None =>
        {| VideoElementParent.serial := Some created;
           VideoElementParent.tagName := "div";
           VideoElementParent.id := "videoElementParent" |}
    end in
  let result :=
    VideoElementParent.accesses (S n)
      (VideoElementParent.construct overrides created) in
  fst result = repeat element (S n)
  /\ VideoElementParent._videoElementParent (snd result) = Some element
  /\ VideoElementParent.document (snd result)
     = match overrides with Some _ => created | None => S created end.
Proof.
  cbv zeta. destruct overrides as [given|].
  - rewrite accesses_of_existing. repeat split.
  - cbn [VideoElementParent.accesses].
    change (VideoElementParent.videoElementParent
              (VideoElementParent.construct None created))
      with ({| VideoElementParent.serial := Some created;
               VideoElementParent.tagName := "div";
               VideoElementParent.id := "videoElementParent" |},
            VideoElementParent.construct
              (Some {| VideoElementParent.serial := Some created;
                       VideoElementParent.tagName := "div";
                       VideoElementParent.id := "videoElementParent" |})
              (S created)).
    cbv iota beta. rewrite accesses_of_existing. repeat split.
Qed.
